(** * Session recorder (zoom.py): a shallow embedding and its properties

    The program launches a meeting client, detects the join through the
    titles of the visible windows, drives OBS through obs-websocket
    (StartRecord / StopRecord), waits for the end of the meeting, waits for
    the recording file to settle and appends a task to audio_schedules.json.

    The embedding follows zoom.py function by function.  Everything the
    program reads from outside (clock, window titles, tasklist output,
    socket frames, file sizes, ...) comes from an environment of oracles;
    the program itself is written in a small state / exception / trace
    monad. *)

From Stdlib Require Import ZArith List String Ascii Bool Lia SpecFloat DecimalString.
Import ListNotations.
Local Open Scope string_scope.
Local Open Scope list_scope.
Local Open Scope Z_scope.

(** ** Python strings *)

Module PyStr.

(** [str.lower] on the ASCII letters; other characters are left alone. *)
Definition lower_ascii (c : ascii) : ascii :=
  let n := nat_of_ascii c in
  if andb (Nat.leb 65 n) (Nat.leb n 90) then ascii_of_nat (n + 32) else c.

Fixpoint lower (s : string) : string :=
  match s with
  | EmptyString => EmptyString
  | String c r => String (lower_ascii c) (lower r)
  end.

(** [s.startswith(p)] *)
Definition startswith (s p : string) : bool := String.prefix p s.

(** [sub in s] *)
Fixpoint contains (sub s : string) : bool :=
  if String.prefix sub s then true
  else match s with
       | EmptyString => false
       | String _ r => contains sub r
       end.

(** [s.endswith(suf)] *)
Fixpoint endswith (s suf : string) : bool :=
  if String.eqb s suf then true
  else match s with
       | EmptyString => false
       | String _ r => endswith r suf
       end.

(** [s.split(sep)] for a one-character separator: never the empty list. *)
Fixpoint split (sep : ascii) (s : string) : list string :=
  match s with
  | EmptyString => [EmptyString]
  | String c r =>
      if Ascii.eqb c sep then EmptyString :: split sep r
      else match split sep r with
           | [] => [String c EmptyString]
           | seg :: segs => String c seg :: segs
           end
  end.

(** truth value of a string: non-empty *)
Definition nonempty (s : string) : bool :=
  match s with EmptyString => false | _ => true end.

End PyStr.

(** ** Values decoded from JSON

    [json.loads] yields None, bool, int, float, str, list or dict; the
    session descriptor, the frames of the control socket and the task list
    are all such values.  A dict is an association list in insertion
    order; a float is a binary64 value in the normal form of [SpecFloat]
    (53-bit mantissa for normal numbers), on which [SFeqb] is the IEEE
    equality that Python's [==] uses. *)

#[warnings="-register-all"]
Inductive json : Type :=
| JNull
| JBool (b : bool)
| JInt (z : Z)
| JFloat (f : spec_float)
| JStr (s : string)
| JArr (l : list json)
| JObj (l : list (string * json)).

(** Python exceptions that the program can meet. *)
Inductive exn : Type :=
| AttributeError
| TypeError
| NameError
| ValueError
| OSError
| ConnectionRefused
| ConnectionClosed.

Module Py.

(** the floats 0.0, 2.0 and 7.0 *)
Definition float0 : spec_float := S754_zero false.
Definition float2 : spec_float := S754_finite false 4503599627370496 (-51).
Definition float7 : spec_float := S754_finite false 7881299347898368 (-50).

(** [bool(v)] *)
Definition truthy (v : json) : bool :=
  match v with
  | JNull => false
  | JBool b => b
  | JInt z => negb (z =? 0)
  | JFloat f => negb (SFeqb f float0)
  | JStr s => PyStr.nonempty s
  | JArr l => match l with [] => false | _ => true end
  | JObj l => match l with [] => false | _ => true end
  end.

Fixpoint assoc (k : string) (l : list (string * json)) : option json :=
  match l with
  | [] => None
  | (k', v) :: r => if String.eqb k k' then Some v else assoc k r
  end.

(** [d.get(k, default)] on a dict *)
Definition dict_get (l : list (string * json)) (k : string) (default : json) : json :=
  match assoc k l with Some v => v | None => default end.

(** [v.get(k, default)] on any value: only a dict has [get]. *)
Definition get (v : json) (k : string) (default : json) : exn + json :=
  match v with
  | JObj l => inr (dict_get l k default)
  | _ => inl AttributeError
  end.

(** [v == n] for an int literal [n] whose float is [nf] *)
Definition eq_int (v : json) (n : Z) (nf : spec_float) : bool :=
  match v with
  | JInt z => z =? n
  | JFloat f => SFeqb f nf
  | JBool b => (if b then 1 else 0) =? n
  | _ => false
  end.

(** [v == s] for a str [s] *)
Definition eq_str (v : json) (s : string) : bool :=
  match v with
  | JStr t => String.eqb t s
  | _ => false
  end.

End Py.

(** ** The outside world

    [World] is what changes while the program runs: the wall clock (in
    milliseconds), how many answers of each oracle have been consumed, and
    the content of audio_schedules.json.  [Env] holds the oracles, indexed
    by the number of earlier queries of the same kind, and the library
    functions whose results the program only passes along ([urlparse],
    [parse_qs], [os.path], [str]).

    The clock never runs backwards: a sleep of n seconds moves it by n
    seconds, and whatever else has gone by since the last reading is added,
    as a natural number of milliseconds, when [time.time()] is called. *)

(** audio_schedules.json: missing, not readable as JSON, or a JSON value *)
Inductive file : Type :=
| Absent
| Corrupt
| Content (v : json).

(** what [ws.recv()] followed by [json.loads] makes of one incoming frame *)
Inductive frame : Type :=
| Unparsable
| Parsed (v : json).

(** what happens after the last scripted frame: the peer closes the socket
    ([recv] raises) or stays silent ([recv] never returns) *)
Inductive ending : Type := Closes | Silent.

Record script : Type := {
  frames : list frame;
  after : ending;
  send_ok : nat -> bool          (* does the k-th [ws.send] go through *)
}.

Inductive connection : Type :=
| Refused
| Accepted (s : script).

(** one look at the recording file: [os.path.exists] false, a size, or
    [os.path.getsize] raising on a path that exists *)
Inductive sample : Type :=
| Missing
| Size (n : N)
| Unreadable.

Record World : Type := {
  w_now : Z;
  w_clock : nat;
  w_ui : nat;
  w_titles : nat;
  w_proc : nat;
  w_obs : nat;
  w_stat : nat;
  w_io : nat;
  w_store : file
}.

Record Env : Type := {
  (* oracles *)
  lag : nat -> nat;                      (* ms gone by, sleeps apart, at the k-th clock read *)
  ui : nat -> option exn;                (* os.startfile / pyautogui: None when it goes through *)
  titles : nat -> list string;           (* EnumWindows snapshot *)
  tasklist : nat -> option string;       (* stdout of tasklist, None when subprocess.run raises *)
  obs : nat -> connection;               (* the k-th websockets.connect *)
  stat : nat -> sample;
  uuid8 : nat -> string;                 (* uuid.uuid4().hex[:8] *)
  write : nat -> option (exn * file);    (* rewriting the store: None when it goes through,
                                            else the exception and what is left of the file *)
  (* library functions *)
  urlparse : string -> exn + string * string;      (* path and query *)
  parse_qs_pwd : string -> exn + option string;    (* parse_qs(q).get('pwd', [None])[0] *)
  getcwd : string;
  path_join : list string -> string;
  dirname : string -> string;
  basename : string -> string;
  splitext : string -> string * string;
  str_of : json -> string                          (* str(v), as an f-string formats it *)
}.

Inductive level : Type := INFO | WARNING | ERROR.

(** one constructor per [logging] call of zoom.py *)
Inductive msg : Type :=
| MConverted (launch_url : string)
| MCouldNotConvert (e : exn)
| MUsingProtocol (launch_url : string)
| MLaunching (launch_url : string)
| MLaunchFailed (e : exn)
| MPressedEnter
| MCouldNotPress (e : exn)
| MClicked
| MCouldNotClick (e : exn)
| MWaitingWindow (meet_id : option string)
| MDetected (meet_id : option string)
| MNotDetected (meet_id : option string)
| MNoMeetingId
| MStartResponse (id resp : json)
| MStartError (id : json) (e : exn)
| MWaitingClose (meet_id : option string)
| MWindowClosed (id : json)
| MMonitoring (id : json)
| MProcessExited (id : json)
| MStopResponse (id resp : json)
| MWaitingFile (out : json)
| MNoOutputPath
| MStopError (id : json) (e : exn)
| MFinalizeTimeout (path : json)
| MQueued (file_path : json)
| MQueueFailed (e : exn).

(** The trace of a run: the calls into the collaborators, the effects on
    the outside and the log lines, in program order. *)
Inductive event : Type :=
| CallWaitWindow (meet_id : option string) (timeout_sec : Z)
| CallWaitWindowClose (meet_id : option string)
| CallObsRequest (request_type request_id : string)
| CallWaitFile (path : json)
| CallQueueTask (file_path metadata : json)
| StartFile (url : string)
| Press (key : string)
| Click (x y : Z)
| Sleep (sec : Z)
| EnumWindows
| Tasklist
| WsSend (payload : json)
| Stat (path : json)
| WriteTasks (content : json)
| Log (l : level) (m : msg).

(** ** The monad

    A computation ends with a value, with a Python exception, or not at all
    within what is observed ([Stuck]: a [recv] that never returns, or a loop
    still running when the fuel is spent).  State changes and events of a
    failed computation stay. *)

Inductive res (A : Type) : Type :=
| Ok (a : A)
| Raise (e : exn)
| Stuck.
Arguments Ok {A} a.
Arguments Raise {A} e.
Arguments Stuck {A}.

Definition M (A : Type) : Type := World -> res A * World * list event.

Definition ret {A} (a : A) : M A := fun w => (Ok a, w, []).

Definition bind {A B} (m : M A) (k : A -> M B) : M B :=
  fun w =>
    match m w with
    | (Ok a, w1, t1) => let '(r, w2, t2) := k a w1 in (r, w2, t1 ++ t2)
    | (Raise e, w1, t1) => (Raise e, w1, t1)
    | (Stuck, w1, t1) => (Stuck, w1, t1)
    end.

(** [try: m  except Exception as e: h e] *)
Definition try_except {A} (m : M A) (h : exn -> M A) : M A :=
  fun w =>
    match m w with
    | (Raise e, w1, t1) => let '(r, w2, t2) := h e w1 in (r, w2, t1 ++ t2)
    | other => other
    end.

Definition raise {A} (e : exn) : M A := fun w => (Raise e, w, []).
Definition stuck {A} : M A := fun w => (Stuck, w, []).
Definition emit (e : event) : M unit := fun w => (Ok tt, w, [e]).
Definition emit_all (t : list event) : M unit := fun w => (Ok tt, w, t).
Definition log (l : level) (m : msg) : M unit := emit (Log l m).

(** a pure step that may raise *)
Definition lift {A} (r : exn + A) : M A :=
  match r with inl e => raise e | inr a => ret a end.

Definition of_res {A} (r : res A) : M A := fun w => (r, w, []).

Declare Scope py_scope.
Delimit Scope py_scope with py.
Notation "x <- m ;; k" := (bind m (fun x => k))
  (at level 61, m at next level, right associativity) : py_scope.
Notation "' p <- m ;; k" := (bind m (fun p => k))
  (at level 61, p pattern, m at next level, right associativity) : py_scope.
Notation "m ;; k" := (bind m (fun _ => k))
  (at level 61, right associativity) : py_scope.
Local Open Scope py_scope.

(** ** Primitive effects *)

Definition set_clock (w : World) (now : Z) (reads : nat) : World :=
  {| w_now := now; w_clock := reads; w_ui := w_ui w; w_titles := w_titles w;
     w_proc := w_proc w; w_obs := w_obs w; w_stat := w_stat w; w_io := w_io w;
     w_store := w_store w |}.

Definition set_ui (w : World) (n : nat) : World :=
  {| w_now := w_now w; w_clock := w_clock w; w_ui := n; w_titles := w_titles w;
     w_proc := w_proc w; w_obs := w_obs w; w_stat := w_stat w; w_io := w_io w;
     w_store := w_store w |}.

Definition set_titles (w : World) (n : nat) : World :=
  {| w_now := w_now w; w_clock := w_clock w; w_ui := w_ui w; w_titles := n;
     w_proc := w_proc w; w_obs := w_obs w; w_stat := w_stat w; w_io := w_io w;
     w_store := w_store w |}.

Definition set_proc (w : World) (n : nat) : World :=
  {| w_now := w_now w; w_clock := w_clock w; w_ui := w_ui w; w_titles := w_titles w;
     w_proc := n; w_obs := w_obs w; w_stat := w_stat w; w_io := w_io w;
     w_store := w_store w |}.

Definition set_obs (w : World) (n : nat) : World :=
  {| w_now := w_now w; w_clock := w_clock w; w_ui := w_ui w; w_titles := w_titles w;
     w_proc := w_proc w; w_obs := n; w_stat := w_stat w; w_io := w_io w;
     w_store := w_store w |}.

Definition set_stat (w : World) (n : nat) : World :=
  {| w_now := w_now w; w_clock := w_clock w; w_ui := w_ui w; w_titles := w_titles w;
     w_proc := w_proc w; w_obs := w_obs w; w_stat := n; w_io := w_io w;
     w_store := w_store w |}.

Definition set_io (w : World) (n : nat) (f : file) : World :=
  {| w_now := w_now w; w_clock := w_clock w; w_ui := w_ui w; w_titles := w_titles w;
     w_proc := w_proc w; w_obs := w_obs w; w_stat := w_stat w; w_io := n;
     w_store := f |}.

Section Program.

Variable env : Env.

(** [time.time()], in milliseconds *)
Definition time_time : M Z :=
  fun w =>
    let now := w_now w + Z.of_nat (lag env (w_clock w)) in
    (Ok now, set_clock w now (S (w_clock w)), []).

(** [time.sleep(sec)] *)
Definition sleep (sec : Z) : M unit :=
  fun w => (Ok tt, set_clock w (w_now w + 1000 * sec) (w_clock w), [Sleep sec]).

(** [os.startfile], [pyautogui.press], [pyautogui.click] *)
Definition ui_action (e : event) : M unit :=
  fun w =>
    let w' := set_ui w (S (w_ui w)) in
    match ui env (w_ui w) with
    | None => (Ok tt, w', [e])
    | Some x => (Raise x, w', [e])
    end.

(** [list_window_titles()], lines 43-55 *)
Definition list_window_titles : M (list string) :=
  fun w => (Ok (titles env (w_titles w)), set_titles w (S (w_titles w)), [EnumWindows]).

(** [is_zoom_running()], lines 196-205 *)
Definition is_zoom_running : M bool :=
  fun w =>
    let w' := set_proc w (S (w_proc w)) in
    match tasklist env (w_proc w) with
    | Some stdout => (Ok (PyStr.contains "Zoom.exe" stdout), w', [Tasklist])
    | None => (Ok false, w', [Tasklist])
    end.

(** [websockets.connect(OBS_URI)] *)
Definition ws_connect : M script :=
  fun w =>
    let w' := set_obs w (S (w_obs w)) in
    match obs env (w_obs w) with
    | Accepted s => (Ok s, w', [])
    | Refused => (Raise ConnectionRefused, w', [])
    end.

(** [os.path.exists(path)] and, when it holds, [os.path.getsize(path)].
    A str is a path and an int a file descriptor; [os.stat] rejects the
    other values with a TypeError that [os.path.exists] lets through. *)
Definition os_stat (path : json) : M sample :=
  match path with
  | JStr _ | JInt _ | JBool _ =>
      fun w => (Ok (stat env (w_stat w)), set_stat w (S (w_stat w)), [Stat path])
  | _ => raise TypeError
  end.

Definition uuid4_hex8 : M string :=
  fun w => (Ok (uuid8 env (w_io w)), set_io w (S (w_io w)) (w_store w), []).

Definition read_store : M file := fun w => (Ok (w_store w), w, []).

(** [with open(AUDIO_TASKS_FILE, 'w') as f: json.dump(tasks, f, indent=2)] *)
Definition write_store (tasks : json) : M unit :=
  fun w =>
    match write env (w_io w) with
    | None => (Ok tt, set_io w (S (w_io w)) (Content tasks), [WriteTasks tasks])
    | Some (e, remains) => (Raise e, set_io w (S (w_io w)) remains, [WriteTasks tasks])
    end.

(** ** Window monitor, lines 57-78 *)

Definition id_truthy (meet_id : option string) : bool :=
  match meet_id with Some s => PyStr.nonempty s | None => false end.

Definition id_in (meet_id : option string) (title : string) : bool :=
  match meet_id with Some s => PyStr.contains s title | None => false end.

(** the condition of line 63 *)
Definition join_match (meet_id : option string) (title : string) : bool :=
  let lt := PyStr.lower title in
  (id_truthy meet_id && id_in meet_id title)
  || PyStr.contains "zoom meeting" lt
  || PyStr.endswith lt "zoom".

(** the condition of line 73 *)
Definition close_match (meet_id : option string) (title : string) : bool :=
  let lt := PyStr.lower title in
  (id_truthy meet_id && id_in meet_id title)
  || PyStr.contains "zoom meeting" lt
  || PyStr.endswith lt "zoom".

Fixpoint wait_for_meeting_window_loop (fuel : nat) (meet_id : option string)
    (timeout_sec start_time : Z) : M bool :=
  match fuel with
  | O => stuck
  | S fuel' =>
      now <- time_time ;;
      if now - start_time <? 1000 * timeout_sec then
        ts <- list_window_titles ;;
        if existsb (join_match meet_id) ts then ret true
        else sleep 1 ;;
             wait_for_meeting_window_loop fuel' meet_id timeout_sec start_time
      else ret false
  end.

Definition wait_for_meeting_window (fuel : nat) (meet_id : option string)
    (timeout_sec : Z) : M bool :=
  emit (CallWaitWindow meet_id timeout_sec) ;;
  start_time <- time_time ;;
  wait_for_meeting_window_loop fuel meet_id timeout_sec start_time.

Fixpoint wait_for_meeting_window_close_loop (fuel : nat) (meet_id : option string)
    : M unit :=
  match fuel with
  | O => stuck
  | S fuel' =>
      ts <- list_window_titles ;;
      let found := existsb (close_match meet_id) ts in
      if negb found then ret tt
      else sleep 2 ;;
           wait_for_meeting_window_close_loop fuel' meet_id
  end.

Definition wait_for_meeting_window_close (fuel : nat) (meet_id : option string)
    : M unit :=
  emit (CallWaitWindowClose meet_id) ;;
  wait_for_meeting_window_close_loop fuel meet_id.

(** ** File finalization watcher, lines 117-133 *)

Fixpoint wait_for_file_ready_loop (fuel : nat) (path : json)
    (timeout_sec start last_size : Z) : M unit :=
  match fuel with
  | O => stuck
  | S fuel' =>
      let next (last_size : Z) : M unit :=
        now <- time_time ;;
        if now - start >? 1000 * timeout_sec then
          log WARNING (MFinalizeTimeout path) ;;
          ret tt
        else sleep 1 ;;
             wait_for_file_ready_loop fuel' path timeout_sec start last_size in
      s <- os_stat path ;;
      match s with
      | Missing => next last_size
      | Size n =>
          let size := Z.of_N n in
          if size =? last_size then ret tt else next size
      | Unreadable =>
          let size := last_size in
          if size =? last_size then ret tt else next size
      end
  end.

Definition wait_for_file_ready (fuel : nat) (path : json) (timeout_sec : Z)
    : M unit :=
  emit (CallWaitFile path) ;;
  start <- time_time ;;
  wait_for_file_ready_loop fuel path timeout_sec start (-1).

(** ** Recording control client, lines 137-172 *)

(** [await ws.recv()] once the scripted frames are used up *)
Definition at_end {A} (e : ending) : res A :=
  match e with Closes => Raise ConnectionClosed | Silent => Stuck end.

(** step 3: wait for the Identify response (op 2); gives the frames still
    to come *)
Fixpoint await_identified (e : ending) (fs : list frame) : res (list frame) :=
  match fs with
  | [] => at_end e
  | Unparsable :: rest => await_identified e rest
  | Parsed obj :: rest =>
      match Py.get obj "op" JNull with
      | inl x => Raise x
      | inr op =>
          if Py.eq_int op 2 Py.float2 then Ok rest
          else await_identified e rest
      end
  end.

(** step 5: wait for the response (op 7) that carries [request_id] *)
Fixpoint await_response (request_id : string) (e : ending) (fs : list frame)
    : res json :=
  match fs with
  | [] => at_end e
  | Unparsable :: rest => await_response request_id e rest
  | Parsed obj :: rest =>
      match Py.get obj "op" JNull with
      | inl x => Raise x
      | inr op =>
          if Py.eq_int op 7 Py.float7 then
            match Py.get obj "d" (JObj []) with
            | inl x => Raise x
            | inr data =>
                match Py.get data "requestId" JNull with
                | inl x => Raise x
                | inr rid =>
                    if Py.eq_str rid request_id then Ok obj
                    else await_response request_id e rest
                end
            end
          else await_response request_id e rest
      end
  end.

Definition identify : json :=
  JObj [("op", JInt 1); ("d", JObj [("rpcVersion", JInt 1)])].

Definition request_payload (request_type request_id : string) : json :=
  JObj [("op", JInt 6);
        ("d", JObj [("requestType", JStr request_type);
                    ("requestData", JObj []);
                    ("requestId", JStr request_id)])].

(** One connection, lines 143-172: the payloads sent, in order, and how
    the call ends.  The k-th [ws.send] raises when [send_ok s k] is
    false; the greeting is received and dropped unread. *)
Definition exchange (request_type request_id : string) (s : script)
    : list json * res json :=
  match frames s with
  | [] => ([], at_end (after s))
  | _hello :: fs =>
      if send_ok s 0 then
        match await_identified (after s) fs with
        | Ok fs' =>
            let payload := request_payload request_type request_id in
            if send_ok s 1
            then ([identify; payload], await_response request_id (after s) fs')
            else ([identify; payload], Raise ConnectionClosed)
        | Raise x => ([identify], Raise x)
        | Stuck => ([identify], Stuck)
        end
      else ([identify], Raise ConnectionClosed)
  end.

(** how [_obs_request] ends on a given connection *)
Definition reply (request_type request_id : string) (c : connection) : res json :=
  match c with
  | Refused => Raise ConnectionRefused
  | Accepted s => snd (exchange request_type request_id s)
  end.

Definition _obs_request (request_type request_id : string) : M json :=
  emit (CallObsRequest request_type request_id) ;;
  s <- ws_connect ;;
  let '(sent, r) := exchange request_type request_id s in
  emit_all (map WsSend sent) ;;
  of_res r.

(** ** Task queue store, lines 80-115 *)

Definition as_str (v : json) : exn + string :=
  match v with JStr s => inr s | _ => inl TypeError end.

Definition is_dict (v : json) : bool :=
  match v with JObj _ => true | _ => false end.

(** lines 91-98; [os.path.join] and [os.path.dirname] want str *)
Definition dest_folder (file_path metadata : json) : exn + string :=
  if Py.truthy metadata && is_dict metadata then
    match Py.get metadata "faculty" JNull with
    | inl x => inl x
    | inr fac =>
        match Py.get metadata "classText" JNull with
        | inl x => inl x
        | inr cls =>
            match as_str fac, as_str cls with
            | inr f, inr c =>
                inr (path_join env [getcwd env; "Diploma"; "Workspace"; f; c])
            | _, _ => inl TypeError
            end
        end
    end
  else
    match as_str file_path with
    | inr p => inr (dirname env p)
    | inl x => inl x
    end.

(** [tasks.append(task)]: only a list has [append] *)
Definition py_append (tasks task : json) : exn + json :=
  match tasks with
  | JArr l => inr (JArr (l ++ [task]))
  | _ => inl AttributeError
  end.

Definition queue_audio_task (file_path metadata : json) : M unit :=
  emit (CallQueueTask file_path metadata) ;;
  stored <- read_store ;;
  let tasks := match stored with Content v => v | Absent | Corrupt => JArr [] end in
  p <- lift (as_str file_path) ;;
  let '(base, ext) := splitext env (basename env p) in
  destFolder <- lift (dest_folder file_path metadata) ;;
  now <- time_time ;;
  u <- uuid4_hex8 ;;
  let task :=
    JObj ([("id", JStr (str_of env (JInt now) ++ "_" ++ u)%string);
           ("url", file_path);
           ("fileNameWithoutExt", JStr base);
           ("extension", JStr ext);
           ("destFolder", JStr destFolder)]
          ++ (if Py.truthy metadata then [("metadata", metadata)] else [])) in
  tasks <- lift (py_append tasks task) ;;
  try_except
    (write_store tasks ;;
     log INFO (MQueued file_path))
    (fun e => log ERROR (MQueueFailed e)).

(** ** Session orchestrator, lines 207-318

    [start_recording_A] returns None on every path; the embedding returns
    the exit that was taken. *)

Inductive exit : Type :=
| ExitLaunchError      (* the [return] of line 246 *)
| ExitStartError       (* the [return] of line 287 *)
| ExitStopError        (* the handler of lines 317-318 *)
| ExitEnd.             (* the end of the [try] of lines 300-316 *)

(** the loop of lines 218-221 *)
Fixpoint find_j (parts : list string) : option string :=
  match parts with
  | p :: (q :: _) as rest =>
      if String.eqb (PyStr.lower p) "j" then Some q else find_j rest
  | _ => None
  end.

(** lines 217-223 *)
Definition pick_meet_id (parts : list string) : option string :=
  let meet_id := find_j parts in
  if negb (id_truthy meet_id) && negb (Nat.eqb (List.length parts) 0)
  then Some (last parts "")
  else meet_id.

(** lines 212-225: [parsed] (None while unbound) and [meet_id] *)
Definition parse_url (raw_url : string)
    : option (string * string) * option string :=
  match urlparse env raw_url with
  | inl _ => (None, None)
  | inr (path, query) =>
      (Some (path, query), pick_meet_id (PyStr.split "/" path))
  end.

(** lines 227-239 *)
Definition launch_url_of (raw_url : string) (parsed : option (string * string))
    (meet_id : option string) : M string :=
  if PyStr.startswith raw_url "http" then
    try_except
      ('(_, query) <- lift (match parsed with
                           | Some pq => inr pq
                           | None => inl NameError
                           end) ;;
       pwd <- lift (parse_qs_pwd env query) ;;
       let confno := if id_truthy meet_id
                     then match meet_id with Some m => m | None => "" end
                     else "" in
       let launch_url := ("zoommtg://zoom.us/join?confno=" ++ confno)%string in
       let launch_url :=
         match pwd with
         | Some pw => if PyStr.nonempty pw
                      then (launch_url ++ "&pwd=" ++ pw)%string
                      else launch_url
         | None => launch_url
         end in
       log INFO (MConverted launch_url) ;;
       ret launch_url)
      (fun e => log WARNING (MCouldNotConvert e) ;; ret raw_url)
  else
    log INFO (MUsingProtocol raw_url) ;;
    ret raw_url.

(** lines 247-263 *)
Definition confirm_join : M unit :=
  sleep 10 ;;
  try_except
    (ui_action (Press "enter") ;;
     log INFO MPressedEnter)
    (fun e => log WARNING (MCouldNotPress e)) ;;
  try_except
    (sleep 10 ;;
     ui_action (Click 750 200) ;;
     sleep 10 ;;
     ui_action (Click 710 290) ;;
     log INFO MClicked)
    (fun e => log WARNING (MCouldNotClick e)).

(** lines 265-275: gives [window_found] *)
Definition detect_join (fuel : nat) (meet_id : option string) : M bool :=
  if id_truthy meet_id then
    log INFO (MWaitingWindow meet_id) ;;
    window_found <- wait_for_meeting_window fuel meet_id 60 ;;
    (if window_found then log INFO (MDetected meet_id)
     else log WARNING (MNotDetected meet_id)) ;;
    ret window_found
  else
    log WARNING MNoMeetingId ;;
    ret false.

(** lines 296-297 *)
Fixpoint zoom_exit_loop (fuel : nat) : M unit :=
  match fuel with
  | O => stuck
  | S fuel' =>
      running <- is_zoom_running ;;
      if running then sleep 5 ;; zoom_exit_loop fuel' else ret tt
  end.

(** lines 289-298 *)
Definition await_end (fuel : nat) (id : json) (meet_id : option string)
    (window_found : bool) : M unit :=
  if id_truthy meet_id && window_found then
    log INFO (MWaitingClose meet_id) ;;
    wait_for_meeting_window_close fuel meet_id ;;
    log INFO (MWindowClosed id)
  else
    log INFO (MMonitoring id) ;;
    zoom_exit_loop fuel ;;
    log INFO (MProcessExited id).

(** [resp.get('d', {}).get('responseData', {}).get('outputPath')] *)
Definition output_path (resp : json) : exn + json :=
  match Py.get resp "d" (JObj []) with
  | inl x => inl x
  | inr d =>
      match Py.get d "responseData" (JObj []) with
      | inl x => inl x
      | inr rd => Py.get rd "outputPath" JNull
      end
  end.

(** lines 299-318 *)
Definition stop_and_queue (fuel : nat) (id metadata : json) : M exit :=
  try_except
    (resp <- _obs_request "StopRecord" ("stop_" ++ str_of env id)%string ;;
     log INFO (MStopResponse id resp) ;;
     out <- lift (output_path resp) ;;
     if Py.truthy out then
       log INFO (MWaitingFile out) ;;
       wait_for_file_ready fuel out 30 ;;
       queue_audio_task out metadata ;;
       ret ExitEnd
     else
       log WARNING MNoOutputPath ;;
       ret ExitEnd)
    (fun e => log ERROR (MStopError id e) ;; ret ExitStopError).

Definition start_recording_A (fuel : nat) (event : list (string * json))
    : M exit :=
  let id := Py.dict_get event "id" JNull in
  match Py.dict_get event "zoomUrl" (JStr "") with
  | JStr raw_url =>
      let '(parsed, meet_id) := parse_url raw_url in
      launch_url <- launch_url_of raw_url parsed meet_id ;;
      log INFO (MLaunching launch_url) ;;
      returned <- try_except
                    (ui_action (StartFile launch_url) ;; ret None)
                    (fun e => log ERROR (MLaunchFailed e) ;;
                              ret (Some ExitLaunchError)) ;;
      match returned with
      | Some x => ret x
      | None =>
          confirm_join ;;
          window_found <- detect_join fuel meet_id ;;
          returned <- try_except
                        (resp <- _obs_request "StartRecord"
                                   ("start_" ++ str_of env id)%string ;;
                         log INFO (MStartResponse id resp) ;;
                         ret None)
                        (fun e => log ERROR (MStartError id e) ;;
                                  ret (Some ExitStartError)) ;;
          match returned with
          | Some x => ret x
          | None =>
              await_end fuel id meet_id window_found ;;
              stop_and_queue fuel id (Py.dict_get event "metadata" JNull)
          end
      end
  | _ =>
      (* line 227: only a str has [startswith] *)
      raise AttributeError
  end.

End Program.

(** The spec's two terminal states, read off the exit taken. *)
Inductive outcome : Type := Queued | Failed.

Definition outcome_of (x : exit) : outcome :=
  match x with
  | ExitEnd => Queued
  | ExitLaunchError | ExitStartError | ExitStopError => Failed
  end.

(** the terminal state reached, if the run ends *)
Definition session_outcome (r : res exit) : option outcome :=
  match r with
  | Ok x => Some (outcome_of x)
  | Raise _ | Stuck => None
  end.

(** ** Observing a run *)

Definition result_of {A} (x : res A * World * list event) : res A := fst (fst x).
Definition world_of {A} (x : res A * World * list event) : World := snd (fst x).
Definition trace_of {A} (x : res A * World * list event) : list event := snd x.

(** [l1] is an initial segment of [l2] *)
Definition prefix_of {A} (l1 l2 : list A) : Prop := exists rest, l2 = l1 ++ rest.

(** The four operations of the recording chain. *)
Inductive stage : Type := SStart | SEndWait | SStop | SAppend.

(** Which events are operations of the chain: the StartRecord call, the
    end-of-meeting wait (the window-close wait, or one poll of the client
    process), the StopRecord call, the rewrite of the task list. *)
Definition stage_of (e : event) : option stage :=
  match e with
  | CallObsRequest rt _ =>
      if String.eqb rt "StartRecord" then Some SStart
      else if String.eqb rt "StopRecord" then Some SStop
      else None
  | CallWaitWindowClose _ => Some SEndWait
  | Tasklist => Some SEndWait
  | WriteTasks _ => Some SAppend
  | _ => None
  end.

Fixpoint stages (t : list event) : list stage :=
  match t with
  | [] => []
  | e :: r => match stage_of e with
              | Some s => s :: stages r
              | None => stages r
              end
  end.

Definition is_wait_window (e : event) : bool :=
  match e with CallWaitWindow _ _ => true | _ => false end.
Definition is_wait_close (e : event) : bool :=
  match e with CallWaitWindowClose _ => true | _ => false end.
Definition is_enum (e : event) : bool :=
  match e with EnumWindows => true | _ => false end.
Definition is_tasklist (e : event) : bool :=
  match e with Tasklist => true | _ => false end.
Definition is_write (e : event) : bool :=
  match e with WriteTasks _ => true | _ => false end.
Definition is_obs (request_type : string) (e : event) : bool :=
  match e with CallObsRequest rt _ => String.eqb rt request_type | _ => false end.
Definition is_sleep (e : event) : bool :=
  match e with Sleep _ => true | _ => false end.
Definition is_stat (e : event) : bool :=
  match e with Stat _ => true | _ => false end.

(** The events that the properties of a session speak about; the others
    (sleeps, key presses, clicks, socket sends, file polls and the
    remaining log lines) are dropped from the skeleton of a trace. *)
Definition key (e : event) : bool :=
  match e with
  | CallWaitWindow _ _ | CallWaitWindowClose _ | CallObsRequest _ _
  | StartFile _ | EnumWindows | Tasklist | WriteTasks _ => true
  | Log _ (MLaunchFailed _) | Log _ (MDetected _) | Log _ (MNotDetected _)
  | Log _ MNoMeetingId | Log _ (MStartError _ _) | Log _ (MStopError _ _) => true
  | _ => false
  end.

Definition skeleton (t : list event) : list event := filter key t.

(** A response frame (op 7) whose [d] carries a requestId other than
    [request_id]. *)
Definition mismatched (request_id : string) (f : frame) : bool :=
  match f with
  | Parsed (JObj o) =>
      Py.eq_int (Py.dict_get o "op" JNull) 7 Py.float7
      && match Py.assoc "d" o with
         | Some (JObj d) =>
             match Py.assoc "requestId" d with
             | Some rid => negb (Py.eq_str rid request_id)
             | None => false
             end
         | _ => false
         end
  | _ => false
  end.

(** A response frame (op 7) whose [d] carries exactly [request_id]. *)
Definition matching (request_id : string) (v : json) : bool :=
  match v with
  | JObj o =>
      Py.eq_int (Py.dict_get o "op" JNull) 7 Py.float7
      && match Py.assoc "d" o with
         | Some (JObj d) =>
             match Py.assoc "requestId" d with
             | Some (JStr rid) => String.eqb rid request_id
             | _ => false
             end
         | _ => false
         end
  | _ => false
  end.

(** the same connection with other incoming frames *)
Definition with_frames (s : script) (fs : list frame) : script :=
  {| frames := fs; after := after s; send_ok := send_ok s |}.

(** the task list that [queue_audio_task] reads: a missing or unreadable
    file counts as the empty list *)
Definition tasks_of (f : file) : json :=
  match f with Content v => v | Absent | Corrupt => JArr [] end.

(** the task that a write puts last, and its destination *)
Definition last_task (tasks : json) : option json :=
  match tasks with
  | JArr l => match rev l with t :: _ => Some t | [] => None end
  | _ => None
  end.

Definition dest_of (task : json) : option json :=
  match task with JObj o => Py.assoc "destFolder" o | _ => None end.

(** the clock as the next [time.time()] will read it *)
Definition next_read (env : Env) (w : World) : Z :=
  w_now w + Z.of_nat (lag env (w_clock w)).

(** one turn of the loop of lines 121-133 *)
Definition file_loop_body (env : Env) (fuel : nat) (path : json) (timeout start last : Z)
    (w : World) : res unit * World * list event :=
  let w1 := set_stat w (S (w_stat w)) in
  let next (last' : Z) :=
    let w2 := set_clock w1 (next_read env w) (S (w_clock w)) in
    if next_read env w - start >? 1000 * timeout
    then (Ok tt, w2, [Stat path; Log WARNING (MFinalizeTimeout path)])
    else let '(r, w', t) :=
           wait_for_file_ready_loop env fuel path timeout start last'
             (set_clock w2 (next_read env w + 1000 * 1) (S (w_clock w))) in
         (r, w', Stat path :: Sleep 1 :: t) in
  match stat env (w_stat w) with
  | Missing => next last
  | Size n => if Z.of_N n =? last then (Ok tt, w1, [Stat path]) else next (Z.of_N n)
  | Unreadable => (Ok tt, w1, [Stat path])
  end.

(** the dict literal of lines 99-108 *)
Definition task_record (env : Env) (file_path metadata : json)
    (base ext dest : string) (now : Z) (u : string) : json :=
  JObj ([("id", JStr (str_of env (JInt now) ++ "_" ++ u)%string);
         ("url", file_path);
         ("fileNameWithoutExt", JStr base);
         ("extension", JStr ext);
         ("destFolder", JStr dest)]
        ++ (if Py.truthy metadata then [("metadata", metadata)] else [])).

(** neither the control socket nor the task list was touched *)
Definition untouched (w w' : World) : Prop :=
  w_obs w' = w_obs w /\ w_store w' = w_store w.

(** ** What a session leaves in the skeleton of its trace

    One shape per block of [start_recording_A], by how the block ends. *)

(** lines 265-275 *)
Definition detect_shape (meet_id : option string) (r : res bool) (d : list event)
    : Prop :=
  if id_truthy meet_id then
    exists k,
      let polls := CallWaitWindow meet_id 60 :: repeat EnumWindows k in
      (r = Stuck /\ d = polls)
      \/ (r = Ok true /\ d = polls ++ [Log INFO (MDetected meet_id)])
      \/ (r = Ok false /\ d = polls ++ [Log WARNING (MNotDetected meet_id)])
  else r = Ok false /\ d = [Log WARNING MNoMeetingId].

(** lines 289-298 *)
Definition end_shape (meet_id : option string) (window_found : bool)
    (r : res unit) (d : list event) : Prop :=
  (r = Ok tt \/ r = Stuck) /\
  if id_truthy meet_id && window_found
  then exists k, d = CallWaitWindowClose meet_id :: repeat EnumWindows k
  else exists k, d = repeat Tasklist k /\ (r = Ok tt -> (1 <= k)%nat).

(** lines 299-318, on the connection [c] *)
Definition stop_shape (id : json) (request_id : string) (c : connection)
    (before : file) (w' : World) (r : res exit) (d : list event) : Prop :=
  let call := CallObsRequest "StopRecord" request_id in
  match reply "StopRecord" request_id c with
  | Raise x =>
      r = Ok ExitStopError /\ d = [call; Log ERROR (MStopError id x)] /\
      w_store w' = before
  | Stuck => r = Stuck /\ d = [call] /\ w_store w' = before
  | Ok _ =>
      ((r = Stuck \/ r = Ok ExitEnd) /\ d = [call] /\ w_store w' = before)
      \/ (exists x, r = Ok ExitStopError /\ d = [call; Log ERROR (MStopError id x)] /\
                    w_store w' = before)
      \/ (exists tasks, r = Ok ExitEnd /\ d = [call; WriteTasks tasks])
  end.

(** lines 240-318, for a session whose zoomUrl is a str: the result, the
    skeleton of the trace and the task list, by where the run ends *)
Inductive session_shape (env : Env) (id : json) (meet_id : option string)
    (w w' : World) (r : res exit) (sk : list event) : Prop :=
| EndsAtLaunch launch_url x :
    ui env (w_ui w) = Some x ->
    r = Ok ExitLaunchError ->
    sk = [StartFile launch_url; Log ERROR (MLaunchFailed x)] ->
    w_store w' = w_store w ->
    session_shape env id meet_id w w' r sk
| StuckInDetection launch_url d :
    ui env (w_ui w) = None ->
    detect_shape meet_id Stuck d ->
    r = Stuck ->
    sk = StartFile launch_url :: d ->
    w_store w' = w_store w ->
    session_shape env id meet_id w w' r sk
| EndsAtStart launch_url window_found d x :
    ui env (w_ui w) = None ->
    detect_shape meet_id (Ok window_found) d ->
    reply "StartRecord" ("start_" ++ str_of env id)%string (obs env (w_obs w)) = Raise x ->
    r = Ok ExitStartError ->
    sk = StartFile launch_url
         :: d ++ [CallObsRequest "StartRecord" ("start_" ++ str_of env id)%string;
                  Log ERROR (MStartError id x)] ->
    w_store w' = w_store w ->
    session_shape env id meet_id w w' r sk
| StuckInStart launch_url window_found d :
    ui env (w_ui w) = None ->
    detect_shape meet_id (Ok window_found) d ->
    reply "StartRecord" ("start_" ++ str_of env id)%string (obs env (w_obs w)) = Stuck ->
    r = Stuck ->
    sk = StartFile launch_url
         :: d ++ [CallObsRequest "StartRecord" ("start_" ++ str_of env id)%string] ->
    w_store w' = w_store w ->
    session_shape env id meet_id w w' r sk
| StuckInMeeting launch_url window_found d resp de :
    ui env (w_ui w) = None ->
    detect_shape meet_id (Ok window_found) d ->
    reply "StartRecord" ("start_" ++ str_of env id)%string (obs env (w_obs w)) = Ok resp ->
    end_shape meet_id window_found Stuck de ->
    r = Stuck ->
    sk = StartFile launch_url
         :: d ++ CallObsRequest "StartRecord" ("start_" ++ str_of env id)%string :: de ->
    w_store w' = w_store w ->
    session_shape env id meet_id w w' r sk
| ReachesStop launch_url window_found d resp de ds :
    ui env (w_ui w) = None ->
    detect_shape meet_id (Ok window_found) d ->
    reply "StartRecord" ("start_" ++ str_of env id)%string (obs env (w_obs w)) = Ok resp ->
    end_shape meet_id window_found (Ok tt) de ->
    stop_shape id ("stop_" ++ str_of env id)%string (obs env (S (w_obs w)))
      (w_store w) w' r ds ->
    sk = StartFile launch_url
         :: d ++ CallObsRequest "StartRecord" ("start_" ++ str_of env id)%string
                 :: de ++ ds ->
    session_shape env id meet_id w w' r sk.

(** what may follow join detection in the skeleton of a session, given
    what detection returned *)
Definition after_detection (id : json) (meet_id : option string)
    (window_found : bool) (e : event) : Prop :=
  (exists rt rid, e = CallObsRequest rt rid)
  \/ (exists x, e = Log ERROR (MStartError id x))
  \/ (exists x, e = Log ERROR (MStopError id x))
  \/ (exists tasks, e = WriteTasks tasks)
  \/ (id_truthy meet_id && window_found = true /\
      (e = CallWaitWindowClose meet_id \/ e = EnumWindows))
  \/ (id_truthy meet_id && window_found = false /\ e = Tasklist).

(** ** A small platform to run the program on

    POSIX-like paths, a URL split at its first "/" and "?", an idle
    desktop, an OBS that answers every request, a clock without lag. *)

Module Demo.

Definition str_after (sep s : string) : option string :=
  match String.index 0 sep s with
  | Some i => Some (String.substring (i + String.length sep) (String.length s) s)
  | None => None
  end.

Definition str_before (sep s : string) : string :=
  match String.index 0 sep s with
  | Some i => String.substring 0 i s
  | None => s
  end.

Fixpoint rsplit (c : ascii) (s : string) : option (string * string) :=
  match s with
  | EmptyString => None
  | String a r =>
      match rsplit c r with
      | Some (x, y) => Some (String a x, y)
      | None => if Ascii.eqb a c then Some (EmptyString, r) else None
      end
  end.

Definition url (u : string) : exn + string * string :=
  let rest := match str_after "://" u with Some r => r | None => u end in
  let pathq := match String.index 0 "/" rest with
               | Some i => String.substring i (String.length rest) rest
               | None => ""
               end in
  inr (str_before "?" pathq,
       match str_after "?" pathq with Some q => q | None => "" end).

Definition pwd (q : string) : exn + option string :=
  inr (match str_after "pwd=" q with
       | Some v => Some (str_before "&" v)
       | None => None
       end).

Definition show (v : json) : string :=
  match v with
  | JStr s => s
  | JInt z => NilZero.string_of_int (Z.to_int z)
  | JNull => "None"
  | _ => "?"
  end.

Definition greeting : frame := Parsed (JObj [("op", JInt 0)]).
Definition identified : frame := Parsed (JObj [("op", JInt 2)]).

Definition response (request_id : string) (data : list (string * json)) : json :=
  JObj [("op", JInt 7);
        ("d", JObj [("requestId", JStr request_id); ("responseData", JObj data)])].

(** answers "start_s1" and "stop_s1", after an unparsable frame and a
    response to somebody else *)
Definition script_up : script :=
  {| frames := [greeting; Unparsable; identified;
                Parsed (response "other" []);
                Parsed (response "start_s1" []);
                Parsed (response "stop_s1" [("outputPath", JStr "out/rec.mp4")])];
     after := Closes;
     send_ok := fun _ => true |}.

Definition obs_up : connection := Accepted script_up.

Definition platform (ui0 : nat -> option exn) (titles0 : nat -> list string)
    (obs0 : nat -> connection) (stat0 : nat -> sample) : Env := {|
  lag := fun _ => 0%nat;
  ui := ui0;
  titles := titles0;
  tasklist := fun k => if Nat.ltb k 2 then Some "Zoom.exe  4242 Console" else Some "";
  obs := obs0;
  stat := stat0;
  uuid8 := fun _ => "0badcafe";
  write := fun _ => None;
  urlparse := url;
  parse_qs_pwd := pwd;
  getcwd := "/srv";
  path_join := String.concat "/";
  dirname := fun s => match rsplit "/" s with Some (d, _) => d | None => "" end;
  basename := fun s => match rsplit "/" s with Some (_, b) => b | None => s end;
  splitext := fun s => match rsplit "." s with
                       | Some (b, e) => (b, String "." e)
                       | None => (s, "")
                       end;
  str_of := show
|}.

Definition ui_fine : nat -> option exn := fun _ => None.
Definition meeting_for_a_while : nat -> list string :=
  fun k => if Nat.ltb k 3 then ["Editor"; "Zoom Meeting"] else ["Editor"].
Definition settling : nat -> sample :=
  fun k => match k with O => Missing | _ => Size (N.of_nat (Nat.min k 3)) end.

Definition env : Env :=
  platform ui_fine meeting_for_a_while (fun _ => obs_up) settling.

(** the protocol handler cannot be started *)
Definition env_launch_fails : Env :=
  platform (fun k => match k with O => Some OSError | _ => None end)
           meeting_for_a_while (fun _ => obs_up) settling.

(** OBS is not running *)
Definition env_obs_down : Env :=
  platform ui_fine meeting_for_a_while (fun _ => Refused) settling.

(** OBS goes away during the meeting *)
Definition env_obs_lost : Env :=
  platform ui_fine meeting_for_a_while
           (fun k => match k with O => obs_up | _ => Refused end) settling.

(** the recording file keeps growing *)
Definition env_growing : Env :=
  platform ui_fine meeting_for_a_while (fun _ => obs_up) (fun k => Size (N.of_nat k)).

(** the recording file is there but its size cannot be read *)
Definition env_unreadable : Env :=
  platform ui_fine meeting_for_a_while (fun _ => obs_up) (fun _ => Unreadable).

Definition w0 : World :=
  {| w_now := 0; w_clock := 0; w_ui := 0; w_titles := 0; w_proc := 0;
     w_obs := 0; w_stat := 0; w_io := 0; w_store := Absent |}.

Definition metadata : list (string * json) :=
  [("faculty", JStr "Fac"); ("classText", JStr "ClsA")].

Definition session : list (string * json) :=
  [("id", JStr "s1");
   ("zoomUrl", JStr "https://host/j/12345?pwd=xyz");
   ("metadata", JObj metadata)].

(** a join link without a meeting id in its path *)
Definition session_without_id : list (string * json) :=
  [("id", JStr "s1"); ("zoomUrl", JStr "https://host/")].

(** what the session above queues on [w0] *)
Definition task0 : json :=
  task_record env (JStr "out/rec.mp4") (JObj metadata) "rec" ".mp4"
    "/srv/Diploma/Workspace/Fac/ClsA" 0 "0badcafe".

End Demo.

(** * Properties *)

(** unfolds the observers and the record projections, and nothing else *)
Ltac obs_simpl :=
  cbn [result_of trace_of world_of fst snd filter is_sleep is_stat is_write is_obs
       is_enum is_tasklist is_wait_window is_wait_close List.length app In
       w_now w_clock w_ui w_titles w_proc w_obs w_stat w_io w_store
       set_clock set_ui set_titles set_proc set_obs set_stat set_io] in *.

(** ** Window monitor *)

Section Monitor.
Variable env : Env.

Lemma close_loop_step fuel mid w :
  wait_for_meeting_window_close_loop env (S fuel) mid w =
  if existsb (close_match mid) (titles env (w_titles w))
  then let '(r, w', t) :=
         wait_for_meeting_window_close_loop env fuel mid
           (set_clock (set_titles w (S (w_titles w))) (w_now w + 1000 * 2) (w_clock w)) in
       (r, w', EnumWindows :: Sleep 2 :: t)
  else (Ok tt, set_titles w (S (w_titles w)), [EnumWindows]).
Proof.
  cbn [wait_for_meeting_window_close_loop]. unfold bind at 1. cbn [list_window_titles].
  destruct (existsb _ _); [|reflexivity].
  unfold bind. cbn [sleep set_titles set_clock w_now w_clock negb].
  destruct (wait_for_meeting_window_close_loop _ _ _ _) as [[r w'] t]. reflexivity.
Qed.

Lemma close_match_is_join_match mid title :
  close_match mid title = join_match mid title.
Proof. reflexivity. Qed.

(** the loop returns exactly when a snapshot without a matching title
    comes up, and then right after that snapshot *)
Lemma close_loop_returns fuel mid : forall w,
  result_of (wait_for_meeting_window_close_loop env fuel mid w) = Ok tt ->
  exists k, (k < fuel)%nat /\
    w_titles (world_of (wait_for_meeting_window_close_loop env fuel mid w))
      = (w_titles w + S k)%nat /\
    existsb (join_match mid) (titles env (w_titles w + k)) = false /\
    forall j, (j < k)%nat ->
      existsb (join_match mid) (titles env (w_titles w + j)) = true.
Proof.
  induction fuel as [|fuel IH]; intros w H.
  - discriminate H.
  - rewrite close_loop_step in *.
    destruct (existsb (close_match mid) (titles env (w_titles w))) eqn:E.
    + specialize (IH (set_clock (set_titles w (S (w_titles w))) (w_now w + 1000 * 2) (w_clock w))).
      destruct (wait_for_meeting_window_close_loop _ _ _ _) as [[r w'] t].
      cbn in H, IH |- *. destruct (IH H) as (k & Hk & Hw & Hlast & Hbefore).
      exists (S k). repeat split.
      * lia.
      * rewrite Hw. lia.
      * rewrite <- Hlast. f_equal. f_equal. lia.
      * intros [|j] Hj.
        -- rewrite Nat.add_0_r. exact E.
        -- rewrite <- (Hbefore j) by lia. f_equal. f_equal. lia.
    + exists 0%nat. cbn. rewrite Nat.add_0_r. repeat split; try lia.
      exact E.
Qed.

Lemma existsb_close_match mid ts :
  existsb (close_match mid) ts = existsb (join_match mid) ts.
Proof. reflexivity. Qed.

Lemma close_loop_complete mid : forall k fuel w,
  (k < fuel)%nat ->
  existsb (join_match mid) (titles env (w_titles w + k)) = false ->
  (forall j, (j < k)%nat ->
     existsb (join_match mid) (titles env (w_titles w + j)) = true) ->
  result_of (wait_for_meeting_window_close_loop env fuel mid w) = Ok tt.
Proof.
  induction k as [|k IH]; intros fuel w Hf Hlast Hbefore;
    (destruct fuel as [|fuel]; [lia|]); rewrite close_loop_step, existsb_close_match.
  - rewrite Nat.add_0_r in Hlast. rewrite Hlast. reflexivity.
  - pose proof (Hbefore 0%nat ltac:(lia)) as H0. rewrite Nat.add_0_r in H0. rewrite H0.
    specialize (IH fuel (set_clock (set_titles w (S (w_titles w))) (w_now w + 1000 * 2) (w_clock w))).
    destruct (wait_for_meeting_window_close_loop _ _ _ _) as [[r w'] t].
    apply IH; cbn [w_titles set_clock set_titles].
    + lia.
    + rewrite <- Hlast. f_equal. f_equal. lia.
    + intros j Hj. rewrite <- (Hbefore (S j)) by lia. f_equal. f_equal. lia.
Qed.

Lemma close_call_result fuel mid w :
  result_of (wait_for_meeting_window_close env fuel mid w)
  = result_of (wait_for_meeting_window_close_loop env fuel mid w).
Proof.
  unfold wait_for_meeting_window_close, bind, emit.
  destruct (wait_for_meeting_window_close_loop _ _ _ _) as [[r w'] t]. reflexivity.
Qed.

Lemma close_call_world fuel mid w :
  world_of (wait_for_meeting_window_close env fuel mid w)
  = world_of (wait_for_meeting_window_close_loop env fuel mid w).
Proof.
  unfold wait_for_meeting_window_close, bind, emit.
  destruct (wait_for_meeting_window_close_loop _ _ _ _) as [[r w'] t]. reflexivity.
Qed.
End Monitor.

(** C9.  [wait_for_meeting_window_close] decides that the meeting is still
    open with the very predicate by which [wait_for_meeting_window] detects
    the join: the meeting id, when there is one, occurs in the title, or
    the lower-cased title contains "zoom meeting" or ends with "zoom".
    The close wait returns right after the first snapshot in which no
    title satisfies that predicate, every earlier snapshot having had one;
    and it does return once such a snapshot comes up. *)
Theorem close_detection_uses_join_predicate :
  (forall meet_id title, close_match meet_id title = join_match meet_id title) /\
  (forall env fuel meet_id w,
     result_of (wait_for_meeting_window_close env fuel meet_id w) = Ok tt ->
     exists k,
       w_titles (world_of (wait_for_meeting_window_close env fuel meet_id w))
         = (w_titles w + S k)%nat /\
       existsb (join_match meet_id) (titles env (w_titles w + k)) = false /\
       forall j, (j < k)%nat ->
         existsb (join_match meet_id) (titles env (w_titles w + j)) = true) /\
  (forall env fuel meet_id w k,
     (k < fuel)%nat ->
     existsb (join_match meet_id) (titles env (w_titles w + k)) = false ->
     (forall j, (j < k)%nat ->
        existsb (join_match meet_id) (titles env (w_titles w + j)) = true) ->
     result_of (wait_for_meeting_window_close env fuel meet_id w) = Ok tt).
Proof.
  split; [|split].
  - intros. apply close_match_is_join_match.
  - intros env fuel mid w H. rewrite close_call_result in H. rewrite close_call_world.
    destruct (close_loop_returns env fuel mid w H) as (k & _ & Hk). exists k. exact Hk.
  - intros env fuel mid w k Hf Hlast Hbefore. rewrite close_call_result.
    eapply close_loop_complete; eauto.
Qed.

Lemma close_detection_witness :
  (exists k,
     w_titles (world_of (wait_for_meeting_window_close Demo.env 5 (Some "12345") Demo.w0))
       = (w_titles Demo.w0 + S k)%nat /\
     existsb (join_match (Some "12345")) (titles Demo.env (w_titles Demo.w0 + k)) = false /\
     forall j, (j < k)%nat ->
       existsb (join_match (Some "12345")) (titles Demo.env (w_titles Demo.w0 + j)) = true) /\
  result_of (wait_for_meeting_window_close Demo.env 5 (Some "12345") Demo.w0) = Ok tt.
Proof.
  split.
  - apply (proj1 (proj2 close_detection_uses_join_predicate)). vm_compute. reflexivity.
  - apply (proj2 (proj2 close_detection_uses_join_predicate) Demo.env 5%nat (Some "12345") Demo.w0 3%nat).
    + lia.
    + vm_compute. reflexivity.
    + intros j Hj. destruct j as [|[|[|j]]]; try lia; vm_compute; reflexivity.
Defined.

(** ** File finalization watcher *)
Section Watcher.
Variable env : Env.

Lemma file_loop_step fuel path timeout start last w :
  wait_for_file_ready_loop env (S fuel) path timeout start last w =
  match path with
  | JStr _ | JInt _ | JBool _ => file_loop_body env fuel path timeout start last w
  | _ => (Raise TypeError, w, [])
  end.
Proof.
  cbn [wait_for_file_ready_loop]. unfold bind at 1.
  assert (Hnext : forall last',
    (now <- time_time env ;;
     (if now - start >? 1000 * timeout
      then log WARNING (MFinalizeTimeout path) ;; ret tt
      else sleep 1 ;; wait_for_file_ready_loop env fuel path timeout start last'))
      (set_stat w (S (w_stat w)))
    = (let w2 := set_clock (set_stat w (S (w_stat w))) (next_read env w) (S (w_clock w)) in
       if next_read env w - start >? 1000 * timeout
       then (Ok tt, w2, [Log WARNING (MFinalizeTimeout path)])
       else let '(r, w', t) :=
              wait_for_file_ready_loop env fuel path timeout start last'
                (set_clock w2 (next_read env w + 1000 * 1) (S (w_clock w))) in
            (r, w', Sleep 1 :: t))).
  { intros last'. unfold bind at 1. cbn [time_time set_stat w_now w_clock].
    fold (next_read env w). cbv zeta.
    destruct (next_read env w - start >? 1000 * timeout); [reflexivity|].
    unfold bind. cbn [sleep set_clock w_now w_clock].
    destruct (wait_for_file_ready_loop _ _ _ _ _ _ _) as [[r w'] t]. reflexivity. }
  cbv zeta in Hnext.
  destruct path; cbn [os_stat raise]; try reflexivity;
    unfold file_loop_body; cbv zeta;
    (destruct (stat env (w_stat w)) as [|n|];
     [ rewrite Hnext
     | destruct (Z.of_N n =? last); [reflexivity|rewrite Hnext]
     | rewrite Z.eqb_refl; reflexivity ];
     (destruct (_ >? _); [reflexivity|];
      destruct (wait_for_file_ready_loop _ _ _ _ _ _ _) as [[r w'] t]; reflexivity)).
Qed.

Lemma file_call_step fuel path timeout w :
  wait_for_file_ready env fuel path timeout w =
  let '(r, w', t) :=
    wait_for_file_ready_loop env fuel path timeout (next_read env w) (-1)
      (set_clock w (next_read env w) (S (w_clock w))) in
  (r, w', CallWaitFile path :: t).
Proof.
  unfold wait_for_file_ready, bind, emit, time_time. fold (next_read env w).
  destruct (wait_for_file_ready_loop _ _ _ _ _ _ _) as [[r w'] t]. reflexivity.
Qed.

Lemma file_loop_total p : forall fuel start last w,
  (1 <= fuel)%nat ->
  31000 - (w_now w - start) < 1000 * Z.of_nat fuel ->
  let run := wait_for_file_ready_loop env fuel (JStr p) 30 start last w in
  result_of run = Ok tt /\
  1000 * Z.of_nat (List.length (filter is_sleep (trace_of run)))
    <= Z.max 0 (31000 - (w_now w - start)) /\
  List.length (filter is_stat (trace_of run))
    = S (List.length (filter is_sleep (trace_of run))) /\
  (In (Log WARNING (MFinalizeTimeout (JStr p))) (trace_of run) ->
   30000 < w_now (world_of run) - start).
Proof.
  induction fuel as [|fuel IH]; intros start last w Hf Hfuel; [lia|].
  cbv zeta. rewrite file_loop_step. unfold file_loop_body. cbv beta iota zeta.
  assert (Hlag : w_now w <= next_read env w) by (unfold next_read; lia).
  assert (Hnext : forall last',
    let run :=
      (if next_read env w - start >? 1000 * 30
       then (Ok tt, set_clock (set_stat w (S (w_stat w))) (next_read env w) (S (w_clock w)),
             [Stat (JStr p); Log WARNING (MFinalizeTimeout (JStr p))])
       else let '(r, w', t) :=
              wait_for_file_ready_loop env fuel (JStr p) 30 start last'
                (set_clock (set_clock (set_stat w (S (w_stat w))) (next_read env w) (S (w_clock w)))
                   (next_read env w + 1000 * 1) (S (w_clock w))) in
            (r, w', Stat (JStr p) :: Sleep 1 :: t)) in
    result_of run = Ok tt /\
    1000 * Z.of_nat (List.length (filter is_sleep (trace_of run)))
      <= Z.max 0 (31000 - (w_now w - start)) /\
    List.length (filter is_stat (trace_of run))
      = S (List.length (filter is_sleep (trace_of run))) /\
    (In (Log WARNING (MFinalizeTimeout (JStr p))) (trace_of run) ->
     30000 < w_now (world_of run) - start)).
  { intros last'. cbv zeta.
    destruct (next_read env w - start >? 1000 * 30) eqn:E.
    - obs_simpl. repeat split; lia.
    - rewrite Z.gtb_ltb, Z.ltb_ge in E.
      specialize (IH start last'
        (set_clock (set_clock (set_stat w (S (w_stat w))) (next_read env w) (S (w_clock w)))
           (next_read env w + 1000 * 1) (S (w_clock w)))).
      obs_simpl.
      destruct IH as (Hr & Hs & Hc & Ht); try lia.
      destruct (wait_for_file_ready_loop _ _ _ _ _ _ _) as [[r w'] t].
      obs_simpl. repeat split; try lia; try assumption.
      intros [H|[H|H]]; try discriminate. auto. }
  destruct (stat env (w_stat w)) as [|n|].
  - apply Hnext.
  - destruct (Z.of_N n =? last).
    + obs_simpl. repeat split; try lia. intros [H|[]]. discriminate.
    + apply Hnext.
  - obs_simpl. repeat split; try lia. intros [H|[]]. discriminate.
Qed.
End Watcher.

(** C10.  When the path exists but [os.path.getsize] raises, the size is
    taken to be [last_size], the comparison [size == last_size] holds and
    the wait returns at once, whatever [last_size] is.  On the very first
    sample ([last_size] still -1) [wait_for_file_ready] so returns after a
    single look at the file: no sleep, no timeout warning, no second
    sample. *)
Theorem failed_size_read_ends_the_wait :
  (forall env fuel p timeout start last w,
     stat env (w_stat w) = Unreadable ->
     wait_for_file_ready_loop env (S fuel) (JStr p) timeout start last w
     = (Ok tt, set_stat w (S (w_stat w)), [Stat (JStr p)])) /\
  (forall env fuel p timeout w,
     stat env (w_stat w) = Unreadable ->
     wait_for_file_ready env (S fuel) (JStr p) timeout w
     = (Ok tt,
        set_stat (set_clock w (w_now w + Z.of_nat (lag env (w_clock w))) (S (w_clock w)))
                 (S (w_stat w)),
        [CallWaitFile (JStr p); Stat (JStr p)])).
Proof.
  split.
  - intros env fuel p timeout start last w H.
    rewrite file_loop_step. unfold file_loop_body. cbv beta iota zeta. rewrite H. reflexivity.
  - intros env fuel p timeout w H.
    rewrite file_call_step, file_loop_step. unfold file_loop_body. cbv beta iota zeta. cbn [w_stat set_clock].
    rewrite H. reflexivity.
Qed.

Lemma failed_size_read_witness :
  wait_for_file_ready_loop Demo.env_unreadable 1 (JStr "rec.mp4") 30 0 512 Demo.w0
  = (Ok tt, set_stat Demo.w0 (S (w_stat Demo.w0)), [Stat (JStr "rec.mp4")]) /\
  wait_for_file_ready Demo.env_unreadable 1 (JStr "rec.mp4") 30 Demo.w0
  = (Ok tt,
     set_stat (set_clock Demo.w0
                 (w_now Demo.w0 + Z.of_nat (lag Demo.env_unreadable (w_clock Demo.w0)))
                 (S (w_clock Demo.w0)))
              (S (w_stat Demo.w0)),
     [CallWaitFile (JStr "rec.mp4"); Stat (JStr "rec.mp4")]).
Proof.
  split.
  - apply (proj1 failed_size_read_ends_the_wait Demo.env_unreadable 0%nat "rec.mp4" 30 0 512
             Demo.w0).
    reflexivity.
  - apply (proj2 failed_size_read_ends_the_wait Demo.env_unreadable 0%nat "rec.mp4" 30 Demo.w0).
    reflexivity.
Defined.

(** C8 as stated fails: with a file that keeps growing and a clock that
    advances by the sleeps alone, the wait returns 31 seconds after it
    started, later than the 30-second timeout. *)
Lemma await_stable_outlasts_timeout :
  result_of (wait_for_file_ready Demo.env_growing 40 (JStr "rec.mp4") 30 Demo.w0) = Ok tt /\
  30000 < w_now (world_of (wait_for_file_ready Demo.env_growing 40 (JStr "rec.mp4") 30 Demo.w0))
          - w_now Demo.w0.
Proof. vm_compute. split; reflexivity. Qed.

(** C8, amended.  Two consecutive samples with the same size end the wait
    no later than at the second of them; a sample taken while the file is
    missing leaves [last_size] as it was and, unless the timeout has
    passed, the loop sleeps one second and polls again; and the wait
    always returns, never raising, after at most 31 sleeps and 32 samples.
    It gives up only at a poll where more than 30 seconds have passed
    since the start, so a return through the timeout comes later than 30
    seconds, not earlier. *)
Theorem await_stable_behaviour :
  (forall env fuel p timeout start last w n,
     stat env (w_stat w) = Size n ->
     stat env (S (w_stat w)) = Size n ->
     result_of (wait_for_file_ready_loop env (S (S fuel)) (JStr p) timeout start last w) = Ok tt /\
     (w_stat (world_of (wait_for_file_ready_loop env (S (S fuel)) (JStr p) timeout start last w))
      <= w_stat w + 2)%nat) /\
  (forall env fuel p timeout start last w,
     stat env (w_stat w) = Missing ->
     w_now w + Z.of_nat (lag env (w_clock w)) - start <= 1000 * timeout ->
     wait_for_file_ready_loop env (S fuel) (JStr p) timeout start last w
     = let '(r, w', t) :=
         wait_for_file_ready_loop env fuel (JStr p) timeout start last
           (set_clock (set_stat w (S (w_stat w)))
              (w_now w + Z.of_nat (lag env (w_clock w)) + 1000 * 1) (S (w_clock w))) in
       (r, w', Stat (JStr p) :: Sleep 1 :: t)) /\
  (forall env fuel p w,
     (32 <= fuel)%nat ->
     result_of (wait_for_file_ready env fuel (JStr p) 30 w) = Ok tt /\
     (List.length (filter is_sleep (trace_of (wait_for_file_ready env fuel (JStr p) 30 w)))
      <= 31)%nat /\
     (List.length (filter is_stat (trace_of (wait_for_file_ready env fuel (JStr p) 30 w)))
      <= 32)%nat /\
     (In (Log WARNING (MFinalizeTimeout (JStr p)))
         (trace_of (wait_for_file_ready env fuel (JStr p) 30 w)) ->
      30000 < w_now (world_of (wait_for_file_ready env fuel (JStr p) 30 w)) - w_now w)).
Proof.
  split; [|split].
  - intros env fuel p timeout start last w n H0 H1.
    rewrite file_loop_step. unfold file_loop_body. cbv beta iota zeta. rewrite H0.
    destruct (Z.of_N n =? last); [obs_simpl; split; [reflexivity|lia]|].
    destruct (_ >? _); [obs_simpl; split; [reflexivity|lia]|].
    rewrite file_loop_step. unfold file_loop_body. cbv beta iota zeta. cbn [w_stat set_clock set_stat].
    rewrite H1, Z.eqb_refl. obs_simpl. split; [reflexivity|lia].
  - intros env fuel p timeout start last w H Ht.
    rewrite file_loop_step. unfold file_loop_body. cbv beta iota zeta. rewrite H. unfold next_read.
    destruct (_ >? _) eqn:E; [lia|]. reflexivity.
  - intros env fuel p w Hf.
    rewrite file_call_step.
    pose proof (file_loop_total env p fuel (next_read env w) (-1)
                  (set_clock w (next_read env w) (S (w_clock w)))) as H.
    cbv zeta in H. cbn [w_now set_clock] in H.
    destruct H as (Hr & Hs & Hc & Ht); try lia.
    destruct (wait_for_file_ready_loop _ _ _ _ _ _ _) as [[r w'] t].
    obs_simpl. unfold next_read in *. repeat split; try lia; try assumption.
    intros [H|H]; [discriminate|]. specialize (Ht H). lia.
Qed.

Lemma await_stable_witness :
  (result_of (wait_for_file_ready_loop Demo.env 2 (JStr "rec.mp4") 30 0 1
               (set_stat Demo.w0 3)) = Ok tt /\
   (w_stat (world_of (wait_for_file_ready_loop Demo.env 2 (JStr "rec.mp4") 30 0 1
                        (set_stat Demo.w0 3)))
    <= w_stat (set_stat Demo.w0 3) + 2)%nat) /\
  wait_for_file_ready_loop Demo.env 5 (JStr "rec.mp4") 30 0 (-1) Demo.w0
  = (let '(r, w', t) :=
       wait_for_file_ready_loop Demo.env 4 (JStr "rec.mp4") 30 0 (-1)
         (set_clock (set_stat Demo.w0 (S (w_stat Demo.w0)))
            (w_now Demo.w0 + Z.of_nat (lag Demo.env (w_clock Demo.w0)) + 1000 * 1)
            (S (w_clock Demo.w0))) in
     (r, w', Stat (JStr "rec.mp4") :: Sleep 1 :: t)) /\
  result_of (wait_for_file_ready Demo.env 32 (JStr "rec.mp4") 30 Demo.w0) = Ok tt.
Proof.
  split; [|split].
  - apply (proj1 await_stable_behaviour Demo.env 0%nat "rec.mp4" 30 0 1
             (set_stat Demo.w0 3) 3%N); reflexivity.
  - apply (proj1 (proj2 await_stable_behaviour) Demo.env 4%nat "rec.mp4" 30 0 (-1) Demo.w0).
    + reflexivity.
    + vm_compute. discriminate.
  - apply (proj2 (proj2 await_stable_behaviour) Demo.env 32%nat "rec.mp4" Demo.w0). lia.
Defined.

(** ** Recording control client *)

Lemma float_seven_not_two f :
  SFeqb f Py.float7 = true -> SFeqb f Py.float2 = false.
Proof.
  unfold SFeqb, SFcompare, Py.float7, Py.float2.
  destruct f as [s|s| |s m e]; try discriminate.
  - destruct s; discriminate.
  - destruct s; [discriminate|].
    destruct (Z.compare_spec e (-50)) as [->| |]; [reflexivity|discriminate|discriminate].
Qed.

Lemma eq_int_seven_not_two v :
  Py.eq_int v 7 Py.float7 = true -> Py.eq_int v 2 Py.float2 = false.
Proof.
  destruct v as [|b|z|f|s|l|l]; cbn [Py.eq_int]; try discriminate.
  - destruct b; discriminate.
  - intros H. apply Z.eqb_eq in H. subst z. reflexivity.
  - apply float_seven_not_two.
Qed.

Section Control.
Variable rid : string.
Variable e : ending.

Lemma mismatched_skipped_identify f fs :
  mismatched rid f = true ->
  await_identified e (f :: fs) = await_identified e fs.
Proof.
  destruct f as [|[| | | | | |o]]; try discriminate. cbn [mismatched].
  intros H. apply andb_prop in H. destruct H as [H _].
  cbn [await_identified Py.get]. rewrite (eq_int_seven_not_two _ H). reflexivity.
Qed.

Lemma mismatched_skipped_response f fs :
  mismatched rid f = true ->
  await_response rid e (f :: fs) = await_response rid e fs.
Proof.
  destruct f as [|[| | | | | |o]]; try discriminate. cbn [mismatched].
  intros H. apply andb_prop in H. destruct H as [H7 H].
  cbn [await_response Py.get]. rewrite H7. unfold Py.dict_get.
  destruct (Py.assoc "d" o) as [[| | | | | |d]|]; try discriminate.
  cbn [Py.get]. unfold Py.dict_get.
  destruct (Py.assoc "requestId" d) as [v|]; try discriminate.
  apply negb_true_iff in H. rewrite H. reflexivity.
Qed.

Lemma await_identified_suffix : forall fs rest,
  await_identified e fs = Ok rest -> exists pre, fs = pre ++ rest.
Proof.
  induction fs as [|f fs IH]; intros rest H.
  - destruct e; discriminate H.
  - cbn [await_identified] in H. destruct f as [|obj].
    + destruct (IH _ H) as [pre ->]. exists (Unparsable :: pre). reflexivity.
    + destruct (Py.get obj "op" JNull) as [x|op]; [discriminate|].
      destruct (Py.eq_int op 2 Py.float2).
      * injection H as <-. exists [Parsed obj]. reflexivity.
      * destruct (IH _ H) as [pre ->]. exists (Parsed obj :: pre). reflexivity.
Qed.

Lemma await_response_matching : forall fs resp,
  await_response rid e fs = Ok resp ->
  In (Parsed resp) fs /\ matching rid resp = true.
Proof.
  induction fs as [|f fs IH]; intros resp H.
  - destruct e; discriminate H.
  - cbn [await_response] in H. destruct f as [|obj].
    + destruct (IH _ H). split; [right|]; assumption.
    + destruct obj as [| | | | | |o]; try discriminate H. cbn [Py.get] in H.
      destruct (Py.eq_int (Py.dict_get o "op" JNull) 7 Py.float7) eqn:E7.
      * unfold Py.dict_get at 1 in H.
        destruct (Py.assoc "d" o) as [d|] eqn:Ed.
        -- destruct d as [| | | | | |d]; try discriminate H. cbn [Py.get] in H.
           unfold Py.dict_get in H.
           destruct (Py.assoc "requestId" d) as [v|] eqn:Ev.
           ++ destruct (Py.eq_str v rid) eqn:Es.
              ** injection H as <-. split; [left; reflexivity|].
                 cbn [matching]. rewrite E7, Ed, Ev.
                 destruct v; try discriminate Es. exact Es.
              ** destruct (IH _ H). split; [right|]; assumption.
           ++ cbn [Py.eq_str] in H. destruct (IH _ H). split; [right|]; assumption.
        -- cbn [Py.get Py.dict_get Py.assoc Py.eq_str] in H.
           destruct (IH _ H). split; [right|]; assumption.
      * destruct (IH _ H). split; [right|]; assumption.
Qed.

Lemma await_response_drop f post : forall pre,
  mismatched rid f = true ->
  await_response rid e (pre ++ f :: post) = await_response rid e (pre ++ post).
Proof.
  intros pre Hf. induction pre as [|g pre IH].
  - apply mismatched_skipped_response, Hf.
  - cbn [app await_response]. rewrite IH. reflexivity.
Qed.

Lemma await_identified_drop f post : forall pre,
  mismatched rid f = true ->
  (exists pre',
      await_identified e (pre ++ f :: post) = Ok (pre' ++ f :: post) /\
      await_identified e (pre ++ post) = Ok (pre' ++ post))
  \/ await_identified e (pre ++ f :: post) = await_identified e (pre ++ post).
Proof.
  intros pre Hf. induction pre as [|g pre IH].
  - right. apply mismatched_skipped_identify, Hf.
  - cbn [app await_identified]. destruct g as [|obj]; [exact IH|].
    destruct (Py.get obj "op" JNull) as [x|op]; [right; reflexivity|].
    destruct (Py.eq_int op 2 Py.float2); [|exact IH].
    left. exists pre. split; reflexivity.
Qed.
End Control.

Lemma exchange_drop rt rid s hello pre f post :
  frames s = hello :: pre ++ f :: post ->
  mismatched rid f = true ->
  exchange rt rid s = exchange rt rid (with_frames s (hello :: pre ++ post)).
Proof.
  intros Hs Hf. unfold exchange. rewrite Hs. cbn [with_frames frames after send_ok].
  destruct (send_ok s 0); [|reflexivity].
  destruct (await_identified_drop rid (after s) f post pre Hf) as [(pre' & -> & ->)| ->].
  - destruct (send_ok s 1); [|reflexivity].
    rewrite await_response_drop by exact Hf. reflexivity.
  - reflexivity.
Qed.

Lemma exchange_matching rt rid s resp :
  snd (exchange rt rid s) = Ok resp ->
  In (Parsed resp) (frames s) /\ matching rid resp = true.
Proof.
  unfold exchange. destruct (frames s) as [|hello fs].
  - destruct (after s); discriminate.
  - destruct (send_ok s 0); [|discriminate].
    destruct (await_identified (after s) fs) as [rest|x|] eqn:E; try discriminate.
    destruct (send_ok s 1); [|discriminate]. cbn [snd]. intros H.
    destruct (await_response_matching _ _ _ _ H) as [Hin Hm]. split; [|exact Hm].
    destruct (await_identified_suffix _ _ _ E) as [pre ->].
    right. apply in_or_app. right. exact Hin.
Qed.

Lemma obs_request_run env rt rid w :
  _obs_request env rt rid w =
  match obs env (w_obs w) with
  | Refused => (Raise ConnectionRefused, set_obs w (S (w_obs w)), [CallObsRequest rt rid])
  | Accepted s =>
      (snd (exchange rt rid s), set_obs w (S (w_obs w)),
       CallObsRequest rt rid :: map WsSend (fst (exchange rt rid s)))
  end.
Proof.
  unfold _obs_request, bind, emit, ws_connect.
  destruct (obs env (w_obs w)) as [|s]; [reflexivity|].
  destruct (exchange rt rid s) as [sent r]. unfold emit_all, of_res. cbn [fst snd].
  destruct r; cbn [app]; rewrite ?app_nil_r; reflexivity.
Qed.

Lemma obs_request_result env rt rid w :
  result_of (_obs_request env rt rid w) = reply rt rid (obs env (w_obs w)).
Proof.
  rewrite obs_request_run. unfold reply. destruct (obs env (w_obs w)); reflexivity.
Qed.

(** C5.  [_obs_request] returns only a frame with op 7 whose [d] carries a
    requestId equal to the one sent, and that frame is one of the incoming
    frames.  A response frame with another requestId is neither returned
    nor an error: taking it out of the incoming frames, anywhere after the
    greeting, leaves what is sent and how the call ends unchanged; and the
    greeting itself is dropped whatever it is. *)
Theorem only_the_matching_response_completes :
  (forall env rt rid w resp,
     result_of (_obs_request env rt rid w) = Ok resp ->
     matching rid resp = true /\
     exists s, obs env (w_obs w) = Accepted s /\ In (Parsed resp) (frames s)) /\
  (forall rt rid s hello pre f post,
     frames s = hello :: pre ++ f :: post ->
     mismatched rid f = true ->
     exchange rt rid s = exchange rt rid (with_frames s (hello :: pre ++ post))) /\
  (forall rt rid s hello hello' fs,
     frames s = hello :: fs ->
     exchange rt rid s = exchange rt rid (with_frames s (hello' :: fs))).
Proof.
  split; [|split].
  - intros env rt rid w resp. rewrite obs_request_result. unfold reply.
    destruct (obs env (w_obs w)) as [|s]; [discriminate|]. intros H.
    destruct (exchange_matching _ _ _ _ H). split; [assumption|]. exists s. auto.
  - intros. eapply exchange_drop; eassumption.
  - intros rt rid s hello hello' fs Hs. unfold exchange. rewrite Hs. reflexivity.
Qed.

Lemma matching_response_witness :
  (matching "start_s1" (Demo.response "start_s1" []) = true /\
   exists s, obs Demo.env (w_obs Demo.w0) = Accepted s /\
             In (Parsed (Demo.response "start_s1" [])) (frames s)) /\
  exchange "StartRecord" "start_s1" Demo.script_up
  = exchange "StartRecord" "start_s1"
      (with_frames Demo.script_up
         (Demo.greeting :: [Unparsable; Demo.identified]
            ++ [Parsed (Demo.response "start_s1" []);
                Parsed (Demo.response "stop_s1" [("outputPath", JStr "out/rec.mp4")])])).
Proof.
  split.
  - apply (proj1 only_the_matching_response_completes Demo.env "StartRecord" "start_s1" Demo.w0).
    reflexivity.
  - apply (proj1 (proj2 only_the_matching_response_completes) "StartRecord" "start_s1"
             Demo.script_up Demo.greeting [Unparsable; Demo.identified]
             (Parsed (Demo.response "other" []))).
    + reflexivity.
    + reflexivity.
Defined.

(** ** Task queue store *)

Section Queue.
Variable env : Env.

Lemma dest_of_task_record file_path metadata base ext dest now u :
  dest_of (task_record env file_path metadata base ext dest now u) = Some (JStr dest).
Proof. reflexivity. Qed.

(** the run of [queue_audio_task], case by case *)
Lemma queue_run file_path metadata w :
  queue_audio_task env file_path metadata w =
  match as_str file_path with
  | inl x => (Raise x, w, [CallQueueTask file_path metadata])
  | inr p =>
      match dest_folder env file_path metadata with
      | inl x => (Raise x, w, [CallQueueTask file_path metadata])
      | inr dest =>
          let now := w_now w + Z.of_nat (lag env (w_clock w)) in
          let w1 := set_io (set_clock w now (S (w_clock w))) (S (w_io w)) (w_store w) in
          let task := task_record env file_path metadata
                        (fst (splitext env (basename env p)))
                        (snd (splitext env (basename env p)))
                        dest now (uuid8 env (w_io w)) in
          match py_append (tasks_of (w_store w)) task with
          | inl x => (Raise x, w1, [CallQueueTask file_path metadata])
          | inr tasks =>
              match write env (S (w_io w)) with
              | None =>
                  (Ok tt, set_io w1 (S (S (w_io w))) (Content tasks),
                   [CallQueueTask file_path metadata; WriteTasks tasks;
                    Log INFO (MQueued file_path)])
              | Some (x, remains) =>
                  (Ok tt, set_io w1 (S (S (w_io w))) remains,
                   [CallQueueTask file_path metadata; WriteTasks tasks;
                    Log ERROR (MQueueFailed x)])
              end
          end
      end
  end.
Proof.
  unfold queue_audio_task, bind at 1, emit. unfold bind at 1, read_store.
  fold (tasks_of (w_store w)).
  unfold bind at 1. destruct (as_str file_path) as [x|p]; [reflexivity|].
  cbn [lift ret]. destruct (splitext env (basename env p)) as [base ext] eqn:Es.
  unfold bind at 1. destruct (dest_folder env file_path metadata) as [x|dest]; [reflexivity|].
  cbn [lift ret]. unfold bind at 1, time_time. unfold bind at 1, uuid4_hex8.
  cbn [w_io w_store set_clock]. cbv zeta. unfold bind at 1.
  fold (task_record env file_path metadata base ext dest
          (w_now w + Z.of_nat (lag env (w_clock w))) (uuid8 env (w_io w))).
  cbn [fst snd].
  destruct (py_append _ _) as [x|tasks]; [reflexivity|].
  cbn [lift ret]. unfold try_except, bind, write_store, log, emit.
  cbn [w_io set_io].
  destruct (write env (S (w_io w))) as [[x remains]|]; reflexivity.
Qed.
End Queue.

Lemma assoc_some_nonempty k l v : Py.assoc k l = Some v -> Py.truthy (JObj l) = true.
Proof. destruct l; [discriminate|reflexivity]. Qed.

(** C7.  When the metadata is a dict with str values under faculty and
    classText, the task appended has
    destFolder = os.path.join(os.getcwd(), 'Diploma', 'Workspace', faculty, classText);
    when no metadata is given it has destFolder = os.path.dirname(file_path).
    Every task that is written has one of these two destinations. *)
Theorem dest_folder_of_appended_task :
  (forall env p md unit group w old,
     Py.assoc "faculty" md = Some (JStr unit) ->
     Py.assoc "classText" md = Some (JStr group) ->
     tasks_of (w_store w) = JArr old ->
     exists task,
       In (WriteTasks (JArr (old ++ [task])))
          (trace_of (queue_audio_task env (JStr p) (JObj md) w)) /\
       dest_of task
       = Some (JStr (path_join env [getcwd env; "Diploma"; "Workspace"; unit; group])) /\
       (write env (S (w_io w)) = None ->
        w_store (world_of (queue_audio_task env (JStr p) (JObj md) w))
        = Content (JArr (old ++ [task])))) /\
  (forall env p w old,
     tasks_of (w_store w) = JArr old ->
     exists task,
       In (WriteTasks (JArr (old ++ [task])))
          (trace_of (queue_audio_task env (JStr p) JNull w)) /\
       dest_of task = Some (JStr (dirname env p)) /\
       (write env (S (w_io w)) = None ->
        w_store (world_of (queue_audio_task env (JStr p) JNull w))
        = Content (JArr (old ++ [task])))) /\
  (forall env file_path metadata w tasks,
     In (WriteTasks tasks) (trace_of (queue_audio_task env file_path metadata w)) ->
     exists old task p dest,
       tasks_of (w_store w) = JArr old /\
       tasks = JArr (old ++ [task]) /\
       file_path = JStr p /\
       dest_of task = Some (JStr dest) /\
       ((exists md unit group,
           metadata = JObj md /\
           Py.assoc "faculty" md = Some (JStr unit) /\
           Py.assoc "classText" md = Some (JStr group) /\
           dest = path_join env [getcwd env; "Diploma"; "Workspace"; unit; group])
        \/ (Py.truthy metadata && is_dict metadata = false /\ dest = dirname env p))).
Proof.
  split; [|split].
  - intros env p md unit group w old Hu Hg Hold.
    rewrite queue_run. cbn [as_str]. unfold dest_folder.
    rewrite (assoc_some_nonempty _ _ _ Hu). cbn [is_dict andb Py.get]. unfold Py.dict_get.
    rewrite Hu, Hg. cbn [as_str]. cbv zeta. rewrite Hold. cbn [py_append].
    eexists. split; [|split].
    + destruct (write env (S (w_io w))) as [[x remains]|]; right; left; reflexivity.
    + apply dest_of_task_record.
    + intros ->. reflexivity.
  - intros env p w old Hold.
    rewrite queue_run. cbn [as_str dest_folder Py.truthy andb]. cbv zeta.
    rewrite Hold. cbn [py_append].
    eexists. split; [|split].
    + destruct (write env (S (w_io w))) as [[x remains]|]; right; left; reflexivity.
    + apply dest_of_task_record.
    + intros ->. reflexivity.
  - intros env file_path metadata w tasks. rewrite queue_run.
    destruct file_path as [| | | |p| |]; cbn [as_str];
      try (intros [H|[]]; discriminate H).
    destruct (dest_folder env (JStr p) metadata) as [x|dest] eqn:Ed;
      [intros [H|[]]; discriminate H|].
    cbv zeta. destruct (tasks_of (w_store w)) as [| | | | |old|] eqn:Hold; cbn [py_append];
      try (intros [H|[]]; discriminate H).
    intros Hin.
    assert (Ht : tasks = JArr (old ++ [task_record env (JStr p) metadata
                          (fst (splitext env (basename env p)))
                          (snd (splitext env (basename env p)))
                          dest (w_now w + Z.of_nat (lag env (w_clock w)))
                          (uuid8 env (w_io w))])).
    { destruct (write env (S (w_io w))) as [[x remains]|];
        (destruct Hin as [H|[H|[H|[]]]]; try discriminate H; injection H as <-; reflexivity). }
    exists old. eexists. exists p, dest. split; [reflexivity|]. split; [exact Ht|].
    split; [reflexivity|]. split; [apply dest_of_task_record|].
    unfold dest_folder in Ed.
    destruct (Py.truthy metadata && is_dict metadata) eqn:Em.
    + left. destruct metadata as [| | | | | |md]; try (rewrite andb_false_r in Em; discriminate Em).
      cbn [Py.get] in Ed. unfold Py.dict_get in Ed.
      destruct (Py.assoc "faculty" md) as [[| | | |u| |]|] eqn:Hu; try discriminate Ed;
        destruct (Py.assoc "classText" md) as [[| | | |g| |]|] eqn:Hg; try discriminate Ed.
      cbn [as_str] in Ed. injection Ed as <-.
      exists md, u, g. repeat split; auto.
    + right. cbn [as_str] in Ed. injection Ed as <-. split; reflexivity.
Qed.

Lemma dest_folder_witness :
  (exists task,
     In (WriteTasks (JArr ([] ++ [task])))
        (trace_of (queue_audio_task Demo.env (JStr "out/rec.mp4") (JObj Demo.metadata) Demo.w0)) /\
     dest_of task
     = Some (JStr (path_join Demo.env [getcwd Demo.env; "Diploma"; "Workspace"; "Fac"; "ClsA"])) /\
     (write Demo.env (S (w_io Demo.w0)) = None ->
      w_store (world_of (queue_audio_task Demo.env (JStr "out/rec.mp4") (JObj Demo.metadata)
                           Demo.w0))
      = Content (JArr ([] ++ [task])))) /\
  (exists task,
     In (WriteTasks (JArr ([] ++ [task])))
        (trace_of (queue_audio_task Demo.env (JStr "out/rec.mp4") JNull Demo.w0)) /\
     dest_of task = Some (JStr (dirname Demo.env "out/rec.mp4")) /\
     (write Demo.env (S (w_io Demo.w0)) = None ->
      w_store (world_of (queue_audio_task Demo.env (JStr "out/rec.mp4") JNull Demo.w0))
      = Content (JArr ([] ++ [task])))) /\
  (exists old task p dest,
     tasks_of (w_store Demo.w0) = JArr old /\
     JArr [Demo.task0] = JArr (old ++ [task]) /\
     JStr "out/rec.mp4" = JStr p /\
     dest_of task = Some (JStr dest) /\
     ((exists md unit group,
         JObj Demo.metadata = JObj md /\
         Py.assoc "faculty" md = Some (JStr unit) /\
         Py.assoc "classText" md = Some (JStr group) /\
         dest = path_join Demo.env [getcwd Demo.env; "Diploma"; "Workspace"; unit; group])
      \/ (Py.truthy (JObj Demo.metadata) && is_dict (JObj Demo.metadata) = false /\
          dest = dirname Demo.env p))).
Proof.
  split; [|split].
  - apply (proj1 dest_folder_of_appended_task Demo.env "out/rec.mp4" Demo.metadata
             "Fac" "ClsA" Demo.w0 []); reflexivity.
  - apply (proj1 (proj2 dest_folder_of_appended_task) Demo.env "out/rec.mp4" Demo.w0 []).
    reflexivity.
  - apply (proj2 (proj2 dest_folder_of_appended_task) Demo.env (JStr "out/rec.mp4")
             (JObj Demo.metadata) Demo.w0 (JArr [Demo.task0])).
    vm_compute. right. left. reflexivity.
Defined.

(** ** Session orchestrator *)

Lemma skeleton_app t1 t2 : skeleton (t1 ++ t2) = skeleton t1 ++ skeleton t2.
Proof. apply filter_app. Qed.

Lemma filter_sends l : filter key (map WsSend l) = [].
Proof. induction l as [|v l IH]; [reflexivity|exact IH]. Qed.

Ltac skel :=
  unfold skeleton in *; cbn [filter key app];
  repeat (rewrite ?filter_app, ?filter_sends; cbn [filter key app];
          try match goal with H : filter key _ = _ |- _ => rewrite H end);
  rewrite ?app_nil_r.

Lemma by_run {A} (P : World -> res A -> list event -> Prop) (x : res A * World * list event) :
  (forall r w t, x = (r, w, t) -> P w r t) ->
  P (world_of x) (result_of x) (trace_of x).
Proof. destruct x as [[r w] t]. intros H. apply H. reflexivity. Qed.

Lemma untouched_refl w : untouched w w.
Proof. split; reflexivity. Qed.

Lemma untouched_trans w1 w2 w3 : untouched w1 w2 -> untouched w2 w3 -> untouched w1 w3.
Proof. intros [A B] [C D]. split; congruence. Qed.

Lemma obs_request_reply env rt rid w :
  exists t,
    _obs_request env rt rid w
    = (reply rt rid (obs env (w_obs w)), set_obs w (S (w_obs w)), CallObsRequest rt rid :: t) /\
    filter key t = [].
Proof.
  rewrite obs_request_run. unfold reply. destruct (obs env (w_obs w)) as [|s].
  - exists []. split; reflexivity.
  - eexists. split; [reflexivity|apply filter_sends].
Qed.

Section Orchestrator.
Variable env : Env.

Lemma launch_url_of_run raw parsed mid w :
  exists u t, launch_url_of env raw parsed mid w = (Ok u, w, t) /\ skeleton t = [].
Proof.
  unfold launch_url_of. destruct (PyStr.startswith raw "http").
  - unfold try_except, bind at 1.
    destruct parsed as [[path query]|]; cbn [lift ret raise].
    + unfold bind at 1. destruct (parse_qs_pwd env query) as [x|pwd]; cbn [lift ret raise].
      * unfold bind, log, emit, ret. do 2 eexists. split; reflexivity.
      * cbv zeta. unfold bind, log, emit, ret. do 2 eexists. split; reflexivity.
    + unfold bind, log, emit, ret. do 2 eexists. split; reflexivity.
  - unfold bind, log, emit, ret. do 2 eexists. split; reflexivity.
Qed.

Lemma confirm_join_run w :
  exists w' t, confirm_join env w = (Ok tt, w', t) /\ skeleton t = [] /\ untouched w w'.
Proof.
  unfold confirm_join, bind, try_except, sleep, ui_action, log, emit, ret.
  repeat (obs_simpl; match goal with |- context [ui env ?k] => destruct (ui env k) end);
    obs_simpl; do 2 eexists; (split; [reflexivity|split; [reflexivity|split; reflexivity]]).
Qed.

Lemma join_loop_step fuel mid timeout start w :
  wait_for_meeting_window_loop env (S fuel) mid timeout start w =
  let w1 := set_clock w (next_read env w) (S (w_clock w)) in
  if next_read env w - start <? 1000 * timeout then
    if existsb (join_match mid) (titles env (w_titles w))
    then (Ok true, set_titles w1 (S (w_titles w)), [EnumWindows])
    else let '(r, w', t) :=
           wait_for_meeting_window_loop env fuel mid timeout start
             (set_clock (set_titles w1 (S (w_titles w)))
                (next_read env w + 1000 * 1) (S (w_clock w))) in
         (r, w', EnumWindows :: Sleep 1 :: t)
  else (Ok false, w1, []).
Proof.
  cbn [wait_for_meeting_window_loop]. unfold bind at 1, time_time.
  fold (next_read env w). cbv zeta.
  destruct (next_read env w - start <? 1000 * timeout); [|reflexivity].
  unfold bind at 1, list_window_titles. obs_simpl.
  destruct (existsb _ _); [reflexivity|].
  unfold bind, sleep. obs_simpl.
  destruct (wait_for_meeting_window_loop _ _ _ _ _ _) as [[r w'] t]. reflexivity.
Qed.

Lemma join_loop_run mid timeout start : forall fuel w,
  exists k,
    skeleton (trace_of (wait_for_meeting_window_loop env fuel mid timeout start w))
      = repeat EnumWindows k /\
    untouched w (world_of (wait_for_meeting_window_loop env fuel mid timeout start w)) /\
    forall x, result_of (wait_for_meeting_window_loop env fuel mid timeout start w)
              <> Raise x.
Proof.
  induction fuel as [|fuel IH]; intros w.
  - exists 0%nat. repeat split. discriminate.
  - rewrite join_loop_step. cbv zeta.
    destruct (_ <? _).
    + destruct (existsb _ _).
      * exists 1%nat. repeat split. discriminate.
      * match goal with |- context [wait_for_meeting_window_loop env fuel mid timeout start ?w1] =>
          destruct (IH w1) as (k & Hk & Hu & Hr);
          destruct (wait_for_meeting_window_loop env fuel mid timeout start w1) as [[r w'] t]
        end.
        exists (S k). obs_simpl. repeat split; try apply Hu; try assumption.
        cbn [repeat]. rewrite <- Hk. reflexivity.
    + exists 0%nat. repeat split. discriminate.
Qed.
Lemma detect_join_run fuel mid w :
  detect_shape mid (result_of (detect_join env fuel mid w))
               (skeleton (trace_of (detect_join env fuel mid w))) /\
  untouched w (world_of (detect_join env fuel mid w)).
Proof.
  unfold detect_join, detect_shape. destruct (id_truthy mid).
  - unfold wait_for_meeting_window, bind, log, emit, time_time, ret.
    fold (next_read env w).
    match goal with |- context [wait_for_meeting_window_loop env fuel mid 60 ?s ?w1] =>
      destruct (join_loop_run mid 60 s fuel w1) as (k & Hk & Hu & Hr);
      destruct (wait_for_meeting_window_loop env fuel mid 60 s w1) as [[r w'] t]
    end.
    obs_simpl. split; [|destruct r as [[|]|x|]; exact Hu].
    exists k. cbv zeta.
    destruct r as [[|]|x|]; obs_simpl; unfold skeleton in *; cbn [filter key app];
      rewrite ?filter_app, ?Hk; cbn [filter key app].
    + right. left. split; reflexivity.
    + right. right. split; reflexivity.
    + exfalso. eapply Hr. reflexivity.
    + left. split; reflexivity.
  - unfold bind, log, emit, ret. obs_simpl. repeat split.
Qed.

Lemma close_loop_run mid : forall fuel w,
  exists k,
    skeleton (trace_of (wait_for_meeting_window_close_loop env fuel mid w))
      = repeat EnumWindows k /\
    untouched w (world_of (wait_for_meeting_window_close_loop env fuel mid w)) /\
    (result_of (wait_for_meeting_window_close_loop env fuel mid w) = Ok tt \/
     result_of (wait_for_meeting_window_close_loop env fuel mid w) = Stuck).
Proof.
  induction fuel as [|fuel IH]; intros w.
  - exists 0%nat. repeat split. right. reflexivity.
  - rewrite close_loop_step. destruct (existsb _ _).
    + match goal with |- context [wait_for_meeting_window_close_loop env fuel mid ?w1] =>
        destruct (IH w1) as (k & Hk & Hu & Hr);
        destruct (wait_for_meeting_window_close_loop env fuel mid w1) as [[r w'] t]
      end.
      exists (S k). obs_simpl. repeat split; try apply Hu; try assumption.
      cbn [repeat]. rewrite <- Hk. reflexivity.
    + exists 1%nat. repeat split. left. reflexivity.
Qed.

Lemma zoom_exit_loop_step fuel w :
  zoom_exit_loop env (S fuel) w =
  let w1 := set_proc w (S (w_proc w)) in
  let running := match tasklist env (w_proc w) with
                 | Some stdout => PyStr.contains "Zoom.exe" stdout
                 | None => false
                 end in
  if running
  then let '(r, w', t) :=
         zoom_exit_loop env fuel (set_clock w1 (w_now w + 1000 * 5) (w_clock w)) in
       (r, w', Tasklist :: Sleep 5 :: t)
  else (Ok tt, w1, [Tasklist]).
Proof.
  cbn [zoom_exit_loop]. unfold bind at 1, is_zoom_running. cbv zeta.
  destruct (tasklist env (w_proc w)) as [stdout|]; [|reflexivity].
  destruct (PyStr.contains "Zoom.exe" stdout); [|reflexivity].
  unfold bind, sleep. obs_simpl.
  destruct (zoom_exit_loop _ _ _) as [[r w'] t]. reflexivity.
Qed.

Lemma zoom_exit_loop_run : forall fuel w,
  exists k,
    skeleton (trace_of (zoom_exit_loop env fuel w)) = repeat Tasklist k /\
    untouched w (world_of (zoom_exit_loop env fuel w)) /\
    (result_of (zoom_exit_loop env fuel w) = Ok tt \/
     result_of (zoom_exit_loop env fuel w) = Stuck) /\
    (result_of (zoom_exit_loop env fuel w) = Ok tt -> (1 <= k)%nat).
Proof.
  induction fuel as [|fuel IH]; intros w.
  - exists 0%nat. repeat split. right. reflexivity. discriminate.
  - rewrite zoom_exit_loop_step. cbv zeta.
    destruct (match tasklist env (w_proc w) with Some _ => _ | None => _ end).
    + match goal with |- context [zoom_exit_loop env fuel ?w1] =>
        destruct (IH w1) as (k & Hk & Hu & Hr & Hn);
        destruct (zoom_exit_loop env fuel w1) as [[r w'] t]
      end.
      exists (S k). obs_simpl. repeat split; try apply Hu; try assumption; try lia.
      cbn [repeat]. rewrite <- Hk. reflexivity.
    + exists 1%nat. repeat split; [left; reflexivity|intros; lia].
Qed.

Lemma await_end_run fuel id mid wf w :
  end_shape mid wf (result_of (await_end env fuel id mid wf w))
            (skeleton (trace_of (await_end env fuel id mid wf w))) /\
  untouched w (world_of (await_end env fuel id mid wf w)).
Proof.
  unfold await_end, end_shape. destruct (id_truthy mid && wf).
  - unfold wait_for_meeting_window_close, bind, log, emit, ret.
    destruct (close_loop_run mid fuel w) as (k & Hk & Hu & Hr).
    destruct (wait_for_meeting_window_close_loop env fuel mid w) as [[r w'] t].
    obs_simpl. destruct Hr as [->| ->]; obs_simpl;
      (split; [split; [auto|]|exact Hu]); exists k;
      unfold skeleton in *; cbn [filter key app];
      rewrite ?filter_app, ?Hk; cbn [filter key app]; rewrite ?app_nil_r; reflexivity.
  - unfold bind, log, emit, ret.
    destruct (zoom_exit_loop_run fuel w) as (k & Hk & Hu & Hr & Hn).
    destruct (zoom_exit_loop env fuel w) as [[r w'] t].
    obs_simpl. destruct Hr as [->| ->]; obs_simpl;
      (split; [split; [auto|]|exact Hu]); exists k;
      unfold skeleton in *; cbn [filter key app];
      rewrite ?filter_app, ?Hk; cbn [filter key app]; rewrite ?app_nil_r;
      (split; [reflexivity|]); auto; discriminate.
Qed.
Lemma file_loop_quiet path timeout start : forall fuel last w,
  skeleton (trace_of (wait_for_file_ready_loop env fuel path timeout start last w)) = [] /\
  untouched w (world_of (wait_for_file_ready_loop env fuel path timeout start last w)).
Proof.
  induction fuel as [|fuel IH]; intros last w.
  - split; [reflexivity|apply untouched_refl].
  - rewrite file_loop_step.
    assert (Hbody :
      skeleton (trace_of (file_loop_body env fuel path timeout start last w)) = [] /\
      untouched w (world_of (file_loop_body env fuel path timeout start last w))).
    { unfold file_loop_body. cbv zeta.
      assert (Hnext : forall last',
        let m :=
          (if next_read env w - start >? 1000 * timeout
           then (Ok tt, set_clock (set_stat w (S (w_stat w))) (next_read env w) (S (w_clock w)),
                 [Stat path; Log WARNING (MFinalizeTimeout path)])
           else let '(r, w', t) :=
                  wait_for_file_ready_loop env fuel path timeout start last'
                    (set_clock (set_clock (set_stat w (S (w_stat w))) (next_read env w)
                                  (S (w_clock w)))
                       (next_read env w + 1000 * 1) (S (w_clock w))) in
                (r, w', Stat path :: Sleep 1 :: t)) in
        skeleton (trace_of m) = [] /\ untouched w (world_of m)).
      { intros last'. cbv zeta. destruct (_ >? _).
        - split; [reflexivity|split; reflexivity].
        - match goal with |- context [wait_for_file_ready_loop env fuel path timeout start last' ?w2] =>
            destruct (IH last' w2) as [Hk Hu];
            destruct (wait_for_file_ready_loop env fuel path timeout start last' w2) as [[r w'] t]
          end.
          obs_simpl. split; [exact Hk|exact Hu]. }
      destruct (stat env (w_stat w)) as [|n|].
      - apply Hnext.
      - destruct (Z.of_N n =? last); [split; [reflexivity|split; reflexivity]|apply Hnext].
      - split; [reflexivity|split; reflexivity]. }
    destruct path; try exact Hbody; (split; [reflexivity|apply untouched_refl]).
Qed.

Lemma file_ready_quiet fuel path timeout w :
  skeleton (trace_of (wait_for_file_ready env fuel path timeout w)) = [] /\
  untouched w (world_of (wait_for_file_ready env fuel path timeout w)).
Proof.
  rewrite file_call_step.
  match goal with |- context [wait_for_file_ready_loop env fuel path timeout ?s ?l ?w1] =>
    destruct (file_loop_quiet path timeout s fuel l w1) as [Hk Hu];
    destruct (wait_for_file_ready_loop env fuel path timeout s l w1) as [[r w'] t]
  end.
  obs_simpl. split; [exact Hk|exact Hu].
Qed.

Lemma queue_skeleton file_path metadata w :
  (exists x, result_of (queue_audio_task env file_path metadata w) = Raise x /\
             skeleton (trace_of (queue_audio_task env file_path metadata w)) = [] /\
             w_store (world_of (queue_audio_task env file_path metadata w)) = w_store w)
  \/ (exists tasks,
        result_of (queue_audio_task env file_path metadata w) = Ok tt /\
        skeleton (trace_of (queue_audio_task env file_path metadata w)) = [WriteTasks tasks]).
Proof.
  rewrite queue_run.
  destruct (as_str file_path) as [x|p]; [left; exists x; repeat split|].
  destruct (dest_folder env file_path metadata) as [x|dest]; [left; exists x; repeat split|].
  cbv zeta. destruct (py_append _ _) as [x|tasks]; [left; exists x; repeat split|].
  right. exists tasks. destruct (write env (S (w_io w))) as [[x remains]|]; split; reflexivity.
Qed.
Lemma stop_and_queue_run fuel id metadata w :
  stop_shape id ("stop_" ++ str_of env id)%string (obs env (w_obs w)) (w_store w)
    (world_of (stop_and_queue env fuel id metadata w))
    (result_of (stop_and_queue env fuel id metadata w))
    (skeleton (trace_of (stop_and_queue env fuel id metadata w))).
Proof.
  apply by_run. intros r w' t E.
  unfold stop_and_queue, try_except in E. unfold bind at 1 in E.
  destruct (obs_request_reply env "StopRecord" ("stop_" ++ str_of env id) w)
    as (ts & Ho & Hks).
  rewrite Ho in E. unfold stop_shape. cbv zeta.
  destruct (reply "StopRecord" ("stop_" ++ str_of env id) (obs env (w_obs w)))
    as [resp|x|].
  2: { unfold bind, log, emit, ret in E. injection E as <- <- <-.
       obs_simpl. skel. repeat split. }
  2: { injection E as <- <- <-. obs_simpl. skel. repeat split. }
  unfold bind at 1, log, emit in E. unfold bind at 1 in E.
  destruct (output_path resp) as [x|out]; cbn [lift raise ret] in E.
  { right. left. exists x. unfold bind, ret in E. injection E as <- <- <-.
    obs_simpl. skel. repeat split. }
  destruct (Py.truthy out).
  2: { left. unfold bind, ret in E. injection E as <- <- <-.
       obs_simpl. skel. repeat split. right. reflexivity. }
  unfold bind at 1 in E. unfold bind at 1 in E.
  match type of E with context [wait_for_file_ready env fuel out 30 ?w1] =>
    destruct (file_ready_quiet fuel out 30 w1) as [Hk [_ Hs]];
    destruct (wait_for_file_ready env fuel out 30 w1) as [[[[]|x|] w2] t2]
  end; obs_simpl.
  - unfold bind at 1 in E.
    destruct (queue_skeleton out metadata w2) as [(x & Hr & Hq & Hst)|(tasks & Hr & Hq)];
      destruct (queue_audio_task env out metadata w2) as [[r3 w3] t3];
      obs_simpl; subst r3.
    + right. left. exists x. unfold bind, ret in E. injection E as <- <- <-.
      obs_simpl. skel. repeat split. congruence.
    + right. right. exists tasks. unfold ret in E. injection E as <- <- <-.
      obs_simpl. skel. repeat split.
  - right. left. exists x. unfold bind, ret in E. injection E as <- <- <-.
    obs_simpl. skel. repeat split. exact Hs.
  - left. injection E as <- <- <-. obs_simpl. skel. repeat split; auto.
Qed.

Lemma session_run fuel event w raw :
  Py.dict_get event "zoomUrl" (JStr "") = JStr raw ->
  session_shape env (Py.dict_get event "id" JNull) (snd (parse_url env raw)) w
    (world_of (start_recording_A env fuel event w))
    (result_of (start_recording_A env fuel event w))
    (skeleton (trace_of (start_recording_A env fuel event w))).
Proof.
  intros Hraw. apply by_run. intros r w' t E.
  unfold start_recording_A in E. rewrite Hraw in E.
  destruct (parse_url env raw) as [parsed mid]. cbn [snd].
  set (id := Py.dict_get event "id" JNull) in *.
  unfold bind at 1 in E.
  destruct (launch_url_of_run raw parsed mid w) as (u & t0 & Hl & Hk0). rewrite Hl in E.
  unfold bind at 1, log, emit in E. unfold bind at 1, try_except in E.
  unfold bind at 1, ui_action in E.
  destruct (ui env (w_ui w)) as [x|] eqn:Eui.
  { unfold bind, ret in E. injection E as <- <- <-.
    eapply EndsAtLaunch with (launch_url := u); [exact Eui|reflexivity| |reflexivity].
    skel. reflexivity. }
  cbn [ret] in E. unfold bind at 1 in E.
  destruct (confirm_join_run (set_ui w (S (w_ui w)))) as (w1 & t1 & Hc & Hk1 & Hu1).
  rewrite Hc in E. unfold bind at 1 in E.
  destruct (detect_join_run fuel mid w1) as [Hd Hu2].
  destruct (detect_join env fuel mid w1) as [[rd w2] td]. obs_simpl.
  assert (H2 : untouched w w2).
  { eapply untouched_trans; [|exact Hu2]. eapply untouched_trans; [|exact Hu1].
    split; reflexivity. }
  destruct H2 as [Hobs2 Hst2].
  destruct rd as [wf|x|].
  2: { exfalso. unfold detect_shape in Hd. destruct (id_truthy mid).
       - destruct Hd as (k & [[H _]|[[H _]|[H _]]]); discriminate H.
       - destruct Hd as [H _]. discriminate H. }
  2: { injection E as <- <- <-.
       eapply StuckInDetection with (launch_url := u);
         [exact Eui|exact Hd|reflexivity| |exact Hst2].
       clear Hd. skel. reflexivity. }
  unfold bind at 1, try_except in E. unfold bind at 1 in E.
  destruct (obs_request_reply env "StartRecord" ("start_" ++ str_of env id) w2)
    as (ts & Ho & Hks).
  rewrite Ho, Hobs2 in E.
  destruct (reply "StartRecord" ("start_" ++ str_of env id) (obs env (w_obs w)))
    as [resp|x|] eqn:Erep.
  2: { unfold bind, log, emit, ret in E. injection E as <- <- <-.
       eapply EndsAtStart with (launch_url := u);
         [exact Eui|exact Hd|exact Erep|reflexivity| |exact Hst2].
       clear Hd. obs_simpl. skel. reflexivity. }
  2: { injection E as <- <- <-.
       eapply StuckInStart with (launch_url := u);
         [exact Eui|exact Hd|exact Erep|reflexivity| |exact Hst2].
       clear Hd. obs_simpl. skel. reflexivity. }
  unfold bind at 1, log, emit, ret in E. unfold bind at 1 in E.
  match type of E with context [await_end env fuel id mid wf ?w3] =>
    destruct (await_end_run fuel id mid wf w3) as [He [Hobs4 Hst4]];
    destruct (await_end env fuel id mid wf w3) as [[re w4] te]
  end.
  obs_simpl. destruct re as [[]|x|].
  2: { exfalso. destruct He as [[H|H] _]; discriminate H. }
  2: { injection E as <- <- <-.
       eapply StuckInMeeting with (launch_url := u);
         [exact Eui|exact Hd|exact Erep|exact He|reflexivity| |congruence].
       clear Hd He. skel. reflexivity. }
  match type of E with context [stop_and_queue env fuel id ?md w4] =>
    pose proof (stop_and_queue_run fuel id md w4) as Hs;
    destruct (stop_and_queue env fuel id md w4) as [[rs w5] ts']
  end.
  obs_simpl. rewrite Hobs4, Hst4, Hst2 in Hs. injection E as <- <- <-.
  eapply ReachesStop with (launch_url := u);
    [exact Eui|exact Hd|exact Erep|exact He|exact Hs|].
  clear Hd He Hs. skel. reflexivity.
Qed.

Lemma session_not_str fuel event w :
  (forall raw, Py.dict_get event "zoomUrl" (JStr "") <> JStr raw) ->
  start_recording_A env fuel event w = (Raise AttributeError, w, []).
Proof.
  intros H. unfold start_recording_A.
  destruct (Py.dict_get event "zoomUrl" (JStr "")) as [| | | |raw| |]; try reflexivity.
  exfalso. apply (H raw). reflexivity.
Qed.
End Orchestrator.

(** *** From the skeleton back to the trace *)

Lemma key_of_stage e s : stage_of e = Some s -> key e = true.
Proof. destruct e; try discriminate; reflexivity. Qed.

Lemma stages_skeleton t : stages (skeleton t) = stages t.
Proof.
  induction t as [|e t IH]; [reflexivity|].
  unfold skeleton in *. cbn [filter stages].
  destruct (key e) eqn:K.
  - cbn [stages]. rewrite IH. reflexivity.
  - rewrite IH. destruct (stage_of e) as [s|] eqn:S; [|reflexivity].
    rewrite (key_of_stage _ _ S) in K. discriminate K.
Qed.

Lemma stages_app t1 t2 : stages (t1 ++ t2) = stages t1 ++ stages t2.
Proof.
  induction t1 as [|e t1 IH]; [reflexivity|].
  cbn [app stages]. destruct (stage_of e); rewrite IH; reflexivity.
Qed.

Lemma stages_polls k : stages (repeat EnumWindows k) = [].
Proof. induction k as [|k IH]; [reflexivity|exact IH]. Qed.

Lemma stages_tasklists k : stages (repeat Tasklist k) = repeat SEndWait k.
Proof. induction k as [|k IH]; [reflexivity|]. cbn [repeat stages stage_of]. rewrite IH. reflexivity. Qed.

Lemma in_skeleton e t : In e (skeleton t) <-> In e t /\ key e = true.
Proof. apply filter_In. Qed.

Lemma in_polls e k : In e (repeat EnumWindows k) -> e = EnumWindows.
Proof. intros H. eapply repeat_spec, H. Qed.

Lemma in_tasklists e k : In e (repeat Tasklist k) -> e = Tasklist.
Proof. intros H. eapply repeat_spec, H. Qed.

(** *** What each block contributes *)

Lemma detect_stages mid rd d : detect_shape mid rd d -> stages d = [].
Proof.
  unfold detect_shape. destruct (id_truthy mid).
  - intros (k & [[_ ->]|[[_ ->]|[_ ->]]]); cbn [app stages stage_of];
      rewrite ?stages_app, ?stages_polls; reflexivity.
  - intros [_ ->]. reflexivity.
Qed.

Lemma detect_events mid rd d e :
  detect_shape mid rd d -> In e d ->
  (id_truthy mid = true /\
   (e = CallWaitWindow mid 60 \/ e = EnumWindows \/
    (e = Log INFO (MDetected mid) /\ rd = Ok true) \/
    (e = Log WARNING (MNotDetected mid) /\ rd = Ok false)))
  \/ (id_truthy mid = false /\ e = Log WARNING MNoMeetingId /\ rd = Ok false).
Proof.
  unfold detect_shape. destruct (id_truthy mid).
  - intros (k & H) Hin. left. split; [reflexivity|].
    destruct H as [[Hr ->]|[[Hr ->]|[Hr ->]]];
      cbn [In app] in Hin; rewrite ?in_app_iff in Hin; cbn [In] in Hin;
      repeat match goal with
             | H : _ \/ _ |- _ => destruct H
             | H : In _ (repeat _ _) |- _ => apply in_polls in H
             | H : False |- _ => destruct H
             end; subst; auto.
  - intros [-> ->] [<-|[]]. right. auto.
Qed.

Lemma detect_calls mid rd d :
  detect_shape mid rd d -> id_truthy mid = true -> In (CallWaitWindow mid 60) d.
Proof.
  unfold detect_shape. intros H T. rewrite T in H.
  destruct H as (k & [[_ ->]|[[_ ->]|[_ ->]]]); left; reflexivity.
Qed.

Lemma end_stages mid wf re de :
  end_shape mid wf re de ->
  exists k, stages de = repeat SEndWait k /\ (re = Ok tt -> (1 <= k)%nat).
Proof.
  unfold end_shape. intros [_ H]. destruct (id_truthy mid && wf).
  - destruct H as (k & ->). exists 1%nat. cbn [stages stage_of].
    rewrite stages_polls. split; [reflexivity|lia].
  - destruct H as (k & -> & Hk). exists k. rewrite stages_tasklists. auto.
Qed.

Lemma end_events mid wf re de e :
  end_shape mid wf re de -> In e de ->
  (id_truthy mid && wf = true /\ (e = CallWaitWindowClose mid \/ e = EnumWindows))
  \/ (id_truthy mid && wf = false /\ e = Tasklist).
Proof.
  unfold end_shape. intros [_ H] Hin. destruct (id_truthy mid && wf).
  - left. split; [reflexivity|]. destruct H as (k & ->).
    destruct Hin as [<-|Hin]; [left; reflexivity|right; eapply in_polls, Hin].
  - right. split; [reflexivity|]. destruct H as (k & -> & _). eapply in_tasklists, Hin.
Qed.

Lemma end_waits mid wf de :
  end_shape mid wf (Ok tt) de ->
  if id_truthy mid && wf then In (CallWaitWindowClose mid) de else In Tasklist de.
Proof.
  unfold end_shape. intros [_ H]. destruct (id_truthy mid && wf).
  - destruct H as (k & ->). left. reflexivity.
  - destruct H as (k & -> & Hk). destruct k as [|k]; [specialize (Hk eq_refl); lia|].
    left. reflexivity.
Qed.

Lemma stop_stages id rid c before w' r ds :
  stop_shape id rid c before w' r ds ->
  stages ds = [SStop] \/ stages ds = [SStop; SAppend].
Proof.
  unfold stop_shape. cbv zeta.
  destruct (reply "StopRecord" rid c) as [resp|x|].
  - intros [(_ & -> & _)|[(x & _ & -> & _)|(tasks & _ & ->)]]; auto.
  - intros (_ & -> & _). auto.
  - intros (_ & -> & _). auto.
Qed.

Lemma stop_events id rid c before w' r ds e :
  stop_shape id rid c before w' r ds -> In e ds ->
  e = CallObsRequest "StopRecord" rid
  \/ (exists x, e = Log ERROR (MStopError id x))
  \/ (exists tasks resp, e = WriteTasks tasks /\ reply "StopRecord" rid c = Ok resp).
Proof.
  unfold stop_shape. cbv zeta.
  destruct (reply "StopRecord" rid c) as [resp|x|].
  - intros [(_ & -> & _)|[(x & _ & -> & _)|(tasks & _ & ->)]] Hin; cbn [In] in Hin;
      repeat match goal with
             | H : _ \/ _ |- _ => destruct H
             | H : False |- _ => destruct H
             end; subst; eauto 10.
  - intros (_ & -> & _) [<-|[<-|[]]]; eauto.
  - intros (_ & -> & _) [<-|[]]; eauto.
Qed.

Lemma session_cases env fuel event w :
  start_recording_A env fuel event w = (Raise AttributeError, w, [])
  \/ exists raw, Py.dict_get event "zoomUrl" (JStr "") = JStr raw.
Proof.
  destruct (Py.dict_get event "zoomUrl" (JStr "")) as [| | | |raw| |] eqn:Hurl;
    try (left; apply session_not_str; intros raw'; rewrite Hurl; discriminate).
  right. exists raw. reflexivity.
Qed.

Lemma prefix_of_nil {A} (l : list A) : prefix_of [] l.
Proof. exists l. reflexivity. Qed.

Lemma repeat_shift {A} (a : A) k l : a :: repeat a k ++ l = repeat a k ++ a :: l.
Proof. induction k as [|k IH]; [reflexivity|]. cbn [repeat app]. rewrite <- IH. reflexivity. Qed.

(** C1.  In every run of a session, the operations of the recording chain
    occur in the order StartRecord call, end-of-meeting wait (the
    window-close wait, or polls of the client process), StopRecord call,
    rewrite of the task list: the chain events of the trace are an initial
    segment of Start, EndWait (once or more), Stop, Append.  So each
    operation occurs only after the ones before it, and the calls and the
    append occur at most once. *)
Theorem recording_chain_order : forall env fuel event w,
  exists n,
    prefix_of (stages (trace_of (start_recording_A env fuel event w)))
              (SStart :: repeat SEndWait (S n) ++ [SStop; SAppend]).
Proof.
  intros env fuel event w.
  destruct (session_cases env fuel event w) as [->|[raw Hurl]];
    [exists 0%nat; apply prefix_of_nil|].
  rewrite <- stages_skeleton.
  destruct (session_run env fuel event w raw Hurl)
    as [u x _ _ -> _
       |u d _ Hd _ -> _
       |u wf d x _ Hd _ _ -> _
       |u wf d _ Hd _ _ -> _
       |u wf d resp de _ Hd _ He _ -> _
       |u wf d resp de ds _ Hd _ He Hs ->];
    cbn [stages stage_of]; rewrite ?stages_app; cbn [stages stage_of String.eqb Ascii.eqb Bool.eqb];
    try rewrite (detect_stages _ _ _ Hd); cbn [app].
  - exists 0%nat. apply prefix_of_nil.
  - exists 0%nat. apply prefix_of_nil.
  - exists 0%nat. exists (repeat SEndWait 1 ++ [SStop; SAppend]). reflexivity.
  - exists 0%nat. exists (repeat SEndWait 1 ++ [SStop; SAppend]). reflexivity.
  - destruct (end_stages _ _ _ _ He) as (k & -> & _).
    exists k. exists [SEndWait; SStop; SAppend].
    cbn [repeat app]. rewrite repeat_shift. reflexivity.
  - rewrite stages_app. destruct (end_stages _ _ _ _ He) as (k & -> & Hk).
    destruct k as [|k]; [specialize (Hk eq_refl); lia|]. exists k.
    destruct (stop_stages _ _ _ _ _ _ _ Hs) as [-> | ->].
    + exists [SAppend]. cbn [app]. rewrite <- !app_assoc. reflexivity.
    + exists []. rewrite app_nil_r. reflexivity.
Qed.

Ltac in_cases H :=
  cbn [In app] in H; repeat (rewrite in_app_iff in H; cbn [In] in H);
  repeat match goal with
         | H : _ \/ _ |- _ => destruct H
         | H : False |- _ => destruct H
         end.

(** an event of the skeleton that detection does not emit *)
Ltac not_detect Hd H :=
  let F := fresh in
  destruct (detect_events _ _ _ _ Hd H) as [[_ [F|[F|[[F _]|[F _]]]]]|[_ [F _]]];
  discriminate F.

Ltac not_end He H :=
  let F := fresh in
  destruct (end_events _ _ _ _ _ He H) as [[_ [F|F]]|[_ F]]; discriminate F.

(** C2.  When the StartRecord request raises on the connection the session
    gets, the session never calls StopRecord and never writes the task
    list, which stays as it was; and if the StartRecord call is reached,
    the session logs the error and returns through line 287: outcome
    Failed. *)
Theorem start_failure_ends_session : forall env fuel event w x,
  reply "StartRecord" ("start_" ++ str_of env (Py.dict_get event "id" JNull))%string
        (obs env (w_obs w)) = Raise x ->
  (forall rid, ~ In (CallObsRequest "StopRecord" rid)
                    (trace_of (start_recording_A env fuel event w))) /\
  (forall tasks, ~ In (WriteTasks tasks) (trace_of (start_recording_A env fuel event w))) /\
  w_store (world_of (start_recording_A env fuel event w)) = w_store w /\
  (forall rid, In (CallObsRequest "StartRecord" rid)
                  (trace_of (start_recording_A env fuel event w)) ->
     result_of (start_recording_A env fuel event w) = Ok ExitStartError /\
     session_outcome (result_of (start_recording_A env fuel event w)) = Some Failed /\
     In (Log ERROR (MStartError (Py.dict_get event "id" JNull) x))
        (trace_of (start_recording_A env fuel event w))).
Proof.
  intros env fuel event w x Hfail.
  destruct (session_cases env fuel event w) as [->|[raw Hurl]];
    [repeat split; first [intros ? []|contradiction]|].
  pose proof (session_run env fuel event w raw Hurl) as Hshape.
  assert (Hsk : forall e, key e = true ->
            In e (trace_of (start_recording_A env fuel event w)) ->
            In e (skeleton (trace_of (start_recording_A env fuel event w)))).
  { intros e K H. apply in_skeleton. auto. }
  assert (Hback : forall e,
            In e (skeleton (trace_of (start_recording_A env fuel event w))) ->
            In e (trace_of (start_recording_A env fuel event w))).
  { intros e H. apply in_skeleton in H. apply H. }
  destruct Hshape
    as [u y _ Hr Hs Hst
       |u d _ Hd Hr Hs Hst
       |u wf d y _ Hd Hrep Hr Hs Hst
       |u wf d _ Hd Hrep _ _ _
       |u wf d resp de _ Hd Hrep _ _ _ _
       |u wf d resp de ds _ Hd Hrep _ _ _];
    try (rewrite Hfail in Hrep; discriminate Hrep);
    rewrite Hs in Hsk, Hback; clear Hs.
  - repeat split; try exact Hst.
    + intros rid H. apply Hsk in H; [|reflexivity]. in_cases H; discriminate.
    + intros tasks H. apply Hsk in H; [|reflexivity]. in_cases H; discriminate.
    + exfalso. apply Hsk in H; [|reflexivity]. in_cases H; discriminate.
    + exfalso. apply Hsk in H; [|reflexivity]. in_cases H; discriminate.
    + exfalso. apply Hsk in H; [|reflexivity]. in_cases H; discriminate.
  - repeat split; try exact Hst.
    + intros rid H. apply Hsk in H; [|reflexivity]. in_cases H; try discriminate.
      not_detect Hd H.
    + intros tasks H. apply Hsk in H; [|reflexivity]. in_cases H; try discriminate.
      not_detect Hd H.
    + exfalso. apply Hsk in H; [|reflexivity]. in_cases H; try discriminate. not_detect Hd H.
    + exfalso. apply Hsk in H; [|reflexivity]. in_cases H; try discriminate. not_detect Hd H.
    + exfalso. apply Hsk in H; [|reflexivity]. in_cases H; try discriminate. not_detect Hd H.
  - rewrite Hfail in Hrep. injection Hrep as <-.
    repeat split; try exact Hst; try exact Hr.
    + intros rid H. apply Hsk in H; [|reflexivity]. in_cases H; try discriminate.
      not_detect Hd H.
    + intros tasks H. apply Hsk in H; [|reflexivity]. in_cases H; try discriminate.
      not_detect Hd H.
    + rewrite Hr. reflexivity.
    + apply Hback. right. apply in_or_app. right. right. left. reflexivity.
Qed.

Lemma start_failure_witness :
  (forall rid, ~ In (CallObsRequest "StopRecord" rid)
                    (trace_of (start_recording_A Demo.env_obs_down 10 Demo.session Demo.w0))) /\
  (forall tasks, ~ In (WriteTasks tasks)
                      (trace_of (start_recording_A Demo.env_obs_down 10 Demo.session Demo.w0))) /\
  w_store (world_of (start_recording_A Demo.env_obs_down 10 Demo.session Demo.w0))
  = w_store Demo.w0 /\
  (forall rid, In (CallObsRequest "StartRecord" rid)
                  (trace_of (start_recording_A Demo.env_obs_down 10 Demo.session Demo.w0)) ->
     result_of (start_recording_A Demo.env_obs_down 10 Demo.session Demo.w0)
     = Ok ExitStartError /\
     session_outcome (result_of (start_recording_A Demo.env_obs_down 10 Demo.session Demo.w0))
     = Some Failed /\
     In (Log ERROR (MStartError (Py.dict_get Demo.session "id" JNull) ConnectionRefused))
        (trace_of (start_recording_A Demo.env_obs_down 10 Demo.session Demo.w0))).
Proof.
  apply (start_failure_ends_session Demo.env_obs_down 10%nat Demo.session Demo.w0
           ConnectionRefused).
  reflexivity.
Defined.

(** C6.  When the StopRecord request raises on the connection the session
    gets for it, the task list is never written and stays as it was; and
    if the StopRecord call is reached, the session ends in the handler of
    lines 317-318 with the error logged: outcome Failed. *)
Theorem stop_failure_fails_session : forall env fuel event w x,
  reply "StopRecord" ("stop_" ++ str_of env (Py.dict_get event "id" JNull))%string
        (obs env (S (w_obs w))) = Raise x ->
  (forall tasks, ~ In (WriteTasks tasks) (trace_of (start_recording_A env fuel event w))) /\
  w_store (world_of (start_recording_A env fuel event w)) = w_store w /\
  (forall rid, In (CallObsRequest "StopRecord" rid)
                  (trace_of (start_recording_A env fuel event w)) ->
     result_of (start_recording_A env fuel event w) = Ok ExitStopError /\
     session_outcome (result_of (start_recording_A env fuel event w)) = Some Failed /\
     In (Log ERROR (MStopError (Py.dict_get event "id" JNull) x))
        (trace_of (start_recording_A env fuel event w))).
Proof.
  intros env fuel event w x Hfail.
  destruct (session_cases env fuel event w) as [->|[raw Hurl]];
    [repeat split; first [intros ? []|contradiction]|].
  pose proof (session_run env fuel event w raw Hurl) as Hshape.
  assert (Hsk : forall e, key e = true ->
            In e (trace_of (start_recording_A env fuel event w)) ->
            In e (skeleton (trace_of (start_recording_A env fuel event w)))).
  { intros e K H. apply in_skeleton. auto. }
  assert (Hback : forall e,
            In e (skeleton (trace_of (start_recording_A env fuel event w))) ->
            In e (trace_of (start_recording_A env fuel event w))).
  { intros e H. apply in_skeleton in H. apply H. }
  destruct Hshape
    as [u y _ Hr Hs Hst
       |u d _ Hd Hr Hs Hst
       |u wf d y _ Hd Hrep Hr Hs Hst
       |u wf d _ Hd Hrep Hr Hs Hst
       |u wf d resp de _ Hd Hrep He Hr Hs Hst
       |u wf d resp de ds _ Hd Hrep He Hstop Hs];
    rewrite Hs in Hsk, Hback; clear Hs.
  1-5: (repeat split; try exact Hst;
        [ intros tasks H; apply Hsk in H; [|reflexivity]
        | exfalso; apply Hsk in H; [|reflexivity]
        | exfalso; apply Hsk in H; [|reflexivity]
        | exfalso; apply Hsk in H; [|reflexivity] ];
        in_cases H; try discriminate;
        first [not_detect Hd H | not_end He H]).
  unfold stop_shape in Hstop. cbv zeta in Hstop. rewrite Hfail in Hstop.
  destruct Hstop as (Hr & -> & Hst).
  repeat split; try exact Hst; try exact Hr.
  - intros tasks H. apply Hsk in H; [|reflexivity]. in_cases H; try discriminate;
      first [not_detect Hd H | not_end He H].
  - rewrite Hr. reflexivity.
  - apply Hback. right. apply in_or_app. right. right. apply in_or_app. right.
    right. left. reflexivity.
Qed.

Lemma stop_failure_witness :
  (forall tasks, ~ In (WriteTasks tasks)
                      (trace_of (start_recording_A Demo.env_obs_lost 10 Demo.session Demo.w0))) /\
  w_store (world_of (start_recording_A Demo.env_obs_lost 10 Demo.session Demo.w0))
  = w_store Demo.w0 /\
  (forall rid, In (CallObsRequest "StopRecord" rid)
                  (trace_of (start_recording_A Demo.env_obs_lost 10 Demo.session Demo.w0)) ->
     result_of (start_recording_A Demo.env_obs_lost 10 Demo.session Demo.w0)
     = Ok ExitStopError /\
     session_outcome (result_of (start_recording_A Demo.env_obs_lost 10 Demo.session Demo.w0))
     = Some Failed /\
     In (Log ERROR (MStopError (Py.dict_get Demo.session "id" JNull) ConnectionRefused))
        (trace_of (start_recording_A Demo.env_obs_lost 10 Demo.session Demo.w0))).
Proof.
  apply (stop_failure_fails_session Demo.env_obs_lost 10%nat Demo.session Demo.w0
           ConnectionRefused).
  reflexivity.
Defined.

(** C3, amended.  When [os.startfile] raises, the failure is logged at
    error level and the session ends there, through the [return] of line
    246: no join detection, no request to OBS, the task list untouched. *)
Theorem launch_failure_aborts : forall env fuel event w raw x,
  Py.dict_get event "zoomUrl" (JStr "") = JStr raw ->
  ui env (w_ui w) = Some x ->
  result_of (start_recording_A env fuel event w) = Ok ExitLaunchError /\
  session_outcome (result_of (start_recording_A env fuel event w)) = Some Failed /\
  In (Log ERROR (MLaunchFailed x)) (trace_of (start_recording_A env fuel event w)) /\
  (forall m timeout, ~ In (CallWaitWindow m timeout)
                        (trace_of (start_recording_A env fuel event w))) /\
  (forall rt rid, ~ In (CallObsRequest rt rid)
                     (trace_of (start_recording_A env fuel event w))) /\
  w_store (world_of (start_recording_A env fuel event w)) = w_store w.
Proof.
  intros env fuel event w raw x Hurl Hui.
  destruct (session_run env fuel event w raw Hurl)
    as [u y Hy Hr Hs Hst|u d E|u wf d y E|u wf d E|u wf d resp de E|u wf d resp de ds E];
    try (rewrite Hui in E; discriminate E).
  rewrite Hui in Hy. injection Hy as <-.
  assert (Hsk : forall e, key e = true ->
            In e (trace_of (start_recording_A env fuel event w)) ->
            In e [StartFile u; Log ERROR (MLaunchFailed x)]).
  { intros e K H. rewrite <- Hs. apply in_skeleton. auto. }
  repeat split; try exact Hst; try exact Hr.
  - rewrite Hr. reflexivity.
  - eapply in_skeleton. rewrite Hs. right. left. reflexivity.
  - intros m timeout H. apply Hsk in H; [|reflexivity]. in_cases H; discriminate.
  - intros rt rid H. apply Hsk in H; [|reflexivity]. in_cases H; discriminate.
Qed.

Lemma launch_failure_witness :
  result_of (start_recording_A Demo.env_launch_fails 10 Demo.session Demo.w0)
  = Ok ExitLaunchError /\
  session_outcome (result_of (start_recording_A Demo.env_launch_fails 10 Demo.session Demo.w0))
  = Some Failed /\
  In (Log ERROR (MLaunchFailed OSError))
     (trace_of (start_recording_A Demo.env_launch_fails 10 Demo.session Demo.w0)) /\
  (forall m timeout,
     ~ In (CallWaitWindow m timeout)
          (trace_of (start_recording_A Demo.env_launch_fails 10 Demo.session Demo.w0))) /\
  (forall rt rid,
     ~ In (CallObsRequest rt rid)
          (trace_of (start_recording_A Demo.env_launch_fails 10 Demo.session Demo.w0))) /\
  w_store (world_of (start_recording_A Demo.env_launch_fails 10 Demo.session Demo.w0))
  = w_store Demo.w0.
Proof.
  apply (launch_failure_aborts Demo.env_launch_fails 10%nat Demo.session Demo.w0
           "https://host/j/12345?pwd=xyz" OSError); reflexivity.
Defined.

(** C3 as stated fails: the launch raises, and the session ends without
    join detection and without a StartRecord call. *)
Lemma launch_failure_is_fatal :
  result_of (start_recording_A Demo.env_launch_fails 10 Demo.session Demo.w0)
  = Ok ExitLaunchError /\
  existsb is_wait_window
    (trace_of (start_recording_A Demo.env_launch_fails 10 Demo.session Demo.w0)) = false /\
  existsb (is_obs "StartRecord")
    (trace_of (start_recording_A Demo.env_launch_fails 10 Demo.session Demo.w0)) = false.
Proof. vm_compute. repeat split. Qed.

Lemma session_summary env id mid w w' r sk :
  session_shape env id mid w w' r sk ->
  (exists x, ui env (w_ui w) = Some x /\
             forall e, In e sk -> (exists u, e = StartFile u) \/ e = Log ERROR (MLaunchFailed x))
  \/ (ui env (w_ui w) = None /\
      exists u rd d rest,
        detect_shape mid rd d /\
        sk = StartFile u :: d ++ rest /\
        (rd = Stuck -> rest = []) /\
        forall wf, rd = Ok wf ->
          (forall e, In e rest -> after_detection id mid wf e) /\
          (forall rid, In (CallObsRequest "StopRecord" rid) rest ->
             if id_truthy mid && wf
             then In (CallWaitWindowClose mid) rest
             else In Tasklist rest)).
Proof.
  intros [u x Hui _ -> _
         |u d Hui Hd _ -> _
         |u wf d x Hui Hd _ _ -> _
         |u wf d Hui Hd _ _ -> _
         |u wf d resp de Hui Hd _ He _ -> _
         |u wf d resp de ds Hui Hd _ He Hs ->].
  - left. exists x. split; [exact Hui|]. intros e H. in_cases H; subst; eauto.
  - right. split; [exact Hui|]. exists u, Stuck, d, []. rewrite app_nil_r.
    repeat split; try assumption; discriminate.
  - right. split; [exact Hui|]. exists u, (Ok wf), d. eexists.
    split; [exact Hd|]. split; [reflexivity|]. split; [discriminate|].
    intros wf' [= <-]. split.
    + intros e H. unfold after_detection. in_cases H; subst; eauto 10.
    + intros rid H. in_cases H; discriminate.
  - right. split; [exact Hui|]. exists u, (Ok wf), d. eexists.
    split; [exact Hd|]. split; [reflexivity|]. split; [discriminate|].
    intros wf' [= <-]. split.
    + intros e H. unfold after_detection. in_cases H; subst; eauto 10.
    + intros rid H. in_cases H; discriminate.
  - right. split; [exact Hui|]. exists u, (Ok wf), d. eexists.
    split; [exact Hd|]. split; [reflexivity|]. split; [discriminate|].
    intros wf' [= <-]. split.
    + intros e H. unfold after_detection. destruct H as [<-|H]; [eauto 10|].
      destruct (end_events _ _ _ _ _ He H) as [[T E]|[T E]]; auto 10.
    + intros rid H. exfalso. destruct H as [H|H]; [discriminate H|]. not_end He H.
  - right. split; [exact Hui|]. exists u, (Ok wf), d. eexists.
    split; [exact Hd|]. split; [reflexivity|]. split; [discriminate|].
    intros wf' [= <-]. split.
    + intros e H. unfold after_detection. destruct H as [<-|H]; [eauto 10|].
      apply in_app_iff in H. destruct H as [H|H].
      * destruct (end_events _ _ _ _ _ He H) as [[T E]|[T E]]; auto 10.
      * destruct (stop_events _ _ _ _ _ _ _ _ Hs H) as [->|[[x ->]|(tasks & resp' & -> & _)]];
          eauto 10.
    + intros rid _. pose proof (end_waits _ _ _ He) as Hw.
      destruct (id_truthy mid && wf); right; apply in_or_app; left; exact Hw.
Qed.

Lemma detect_not_raise mid x d : ~ detect_shape mid (Raise x) d.
Proof.
  unfold detect_shape. destruct (id_truthy mid).
  - intros (k & [[H _]|[[H _]|[H _]]]); discriminate H.
  - intros [H _]. discriminate H.
Qed.

Ltac after_cases H :=
  destruct H as [(? & ? & H)|[(? & H)|[(? & H)|[(? & H)|[[? [H|H]]|[? H]]]]]].

Ltac absurd_after H :=
  after_cases H;
  first [ discriminate H
        | match goal with
          | B : @eq bool _ _ |- _ =>
              rewrite ?andb_false_r in B; cbn in B; first [discriminate B|congruence]
          end ].

(** C4, amended.  [wait_for_meeting_window] is called only with the
    extracted meeting id and 60 seconds, and it is called whenever an id
    was extracted and the launch went through.  When it returned true
    (the line "Detected Zoom meeting window" is logged) the client process
    is never polled, and a StopRecord call is preceded by the window-close
    wait; when it returned false (the line "not detected" is logged) the
    window-close wait is never entered, and a StopRecord call is preceded
    by the polling of the client process.  When no id could be extracted,
    [wait_for_meeting_window] is not called at all, no window title is
    read, and the process-based wait is used. *)
Theorem join_detection_strategy : forall env fuel event w raw,
  Py.dict_get event "zoomUrl" (JStr "") = JStr raw ->
  let meet_id := snd (parse_url env raw) in
  let t := trace_of (start_recording_A env fuel event w) in
  (forall m timeout, In (CallWaitWindow m timeout) t ->
     m = meet_id /\ timeout = 60 /\ id_truthy meet_id = true) /\
  (id_truthy meet_id = true -> ui env (w_ui w) = None ->
     In (CallWaitWindow meet_id 60) t) /\
  (In (Log INFO (MDetected meet_id)) t ->
     ~ In Tasklist t /\
     forall rid, In (CallObsRequest "StopRecord" rid) t ->
                 In (CallWaitWindowClose meet_id) t) /\
  (In (Log WARNING (MNotDetected meet_id)) t ->
     (forall m, ~ In (CallWaitWindowClose m) t) /\
     forall rid, In (CallObsRequest "StopRecord" rid) t -> In Tasklist t) /\
  (id_truthy meet_id = false ->
     (forall m timeout, ~ In (CallWaitWindow m timeout) t) /\
     ~ In EnumWindows t /\
     (forall m, ~ In (CallWaitWindowClose m) t) /\
     forall rid, In (CallObsRequest "StopRecord" rid) t -> In Tasklist t).
Proof.
  intros env fuel event w raw Hurl mid t.
  assert (Hsk : forall e, key e = true -> In e t -> In e (skeleton t)).
  { intros e K H. apply in_skeleton. auto. }
  assert (Hback : forall e, In e (skeleton t) -> In e t).
  { intros e H. apply in_skeleton in H. apply H. }
  pose proof (session_summary _ _ _ _ _ _ _ (session_run env fuel event w raw Hurl)) as Hsum.
  fold t in Hsum. fold mid in Hsum.
  destruct Hsum as [(x & Hui & Hev)|(Hui & u & rd & d & rest & Hd & Hs & Hstuck & Hok)].
  { (* the launch failed *)
    assert (Hno : forall e, key e = true -> In e t ->
                    (forall u, e <> StartFile u) -> (forall y, e <> Log ERROR (MLaunchFailed y)) ->
                    False).
    { intros e K H N1 N2. destruct (Hev e (Hsk e K H)) as [[u ->]| ->].
      - eapply N1. reflexivity.
      - eapply N2. reflexivity. }
    repeat split; unfold not; intros;
      try congruence;
      exfalso;
      match goal with
      | H : In ?e t |- _ => apply (Hno e eq_refl H); intros; discriminate
      end. }
  assert (Hrest : forall e, In e rest ->
            exists wf, rd = Ok wf /\ after_detection (Py.dict_get event "id" JNull) mid wf e).
  { intros e H. destruct rd as [wf|x|].
    - exists wf. split; [reflexivity|]. apply (proj1 (Hok wf eq_refl)), H.
    - destruct (detect_not_raise _ _ _ Hd).
    - rewrite (Hstuck eq_refl) in H. destruct H. }
  assert (Hin : forall e, key e = true -> In e t ->
            (exists v, e = StartFile v) \/ In e d \/ In e rest).
  { intros e K H. apply Hsk in H; [|exact K]. rewrite Hs in H.
    destruct H as [<-|H]; [left; eauto|]. apply in_app_iff in H. auto. }
  assert (Hout : forall e, In e rest -> In e t).
  { intros e H. apply Hback. rewrite Hs. right. apply in_or_app. auto. }
  split; [|split; [|split; [|split]]].
  - (* the call carries the extracted id and 60 seconds *)
    intros m timeout H. apply Hin in H; [|reflexivity]; destruct H as [[v E]|[Hd'|Hr]]; [discriminate E| |].
    + destruct (detect_events _ _ _ _ Hd Hd') as [[T [E|[E|[[E _]|[E _]]]]]|[_ [E _]]];
        try discriminate E.
      injection E as -> ->. auto.
    + destruct (Hrest _ Hr) as (wf & _ & Ha). absurd_after Ha.
  - intros T _. apply Hback. rewrite Hs. right. apply in_or_app. left.
    apply (detect_calls _ _ _ Hd T).
  - (* detection returned true *)
    intros H. apply Hin in H; [|reflexivity]; destruct H as [[v E]|[Hd'|Hr]]; [discriminate E| |].
    2: { destruct (Hrest _ Hr) as (wf & _ & Ha). absurd_after Ha. }
    destruct (detect_events _ _ _ _ Hd Hd') as [[T [E|[E|[[_ E]|[E _]]]]]|[_ [E _]]];
      try discriminate E.
    subst rd. destruct (Hok true eq_refl) as [Ha Hw]. rewrite T in Hw. cbn [andb] in Hw.
    split.
    + intros H'. apply Hin in H'; [|reflexivity]; destruct H' as [[v E]|[Hd''|Hr]]; [discriminate E| |].
      * not_detect Hd Hd''.
      * specialize (Ha _ Hr). unfold after_detection in Ha. rewrite T in Ha.
        absurd_after Ha.
    + intros rid H'. apply Hin in H'; [|reflexivity]; destruct H' as [[v E]|[Hd''|Hr]]; [discriminate E| |].
      * not_detect Hd Hd''.
      * apply Hout. eapply Hw, Hr.
  - (* detection returned false *)
    intros H. apply Hin in H; [|reflexivity]; destruct H as [[v E]|[Hd'|Hr]]; [discriminate E| |].
    2: { destruct (Hrest _ Hr) as (wf & _ & Ha). absurd_after Ha. }
    destruct (detect_events _ _ _ _ Hd Hd') as [[T [E|[E|[[E _]|[_ E]]]]]|[_ [E _]]];
      try discriminate E.
    subst rd. destruct (Hok false eq_refl) as [Ha Hw]. rewrite andb_false_r in Hw.
    split.
    + intros m H'. apply Hin in H'; [|reflexivity]; destruct H' as [[v E]|[Hd''|Hr]]; [discriminate E| |].
      * not_detect Hd Hd''.
      * specialize (Ha _ Hr). unfold after_detection in Ha. rewrite andb_false_r in Ha.
        absurd_after Ha.
    + intros rid H'. apply Hin in H'; [|reflexivity]; destruct H' as [[v E]|[Hd''|Hr]]; [discriminate E| |].
      * not_detect Hd Hd''.
      * apply Hout. eapply Hw, Hr.
  - (* no meeting id *)
    intros T.
    assert (Hd0 : forall e, In e d -> e = Log WARNING MNoMeetingId /\ rd = Ok false).
    { intros e H. destruct (detect_events _ _ _ _ Hd H) as [[T' _]|[_ E]]; [congruence|exact E]. }
    assert (Hr0 : forall e, In e rest ->
              after_detection (Py.dict_get event "id" JNull) mid false e).
    { intros e H. destruct (Hrest _ H) as (wf & E & Ha).
      unfold after_detection in *. rewrite T in *. exact Ha. }
    repeat split.
    + intros m timeout H. apply Hin in H; [|reflexivity]; destruct H as [[v E]|[Hd'|Hr]]; [discriminate E| |].
      * destruct (Hd0 _ Hd') as [E _]. discriminate E.
      * specialize (Hr0 _ Hr). absurd_after Hr0.
    + intros H. apply Hin in H; [|reflexivity]; destruct H as [[v E]|[Hd'|Hr]]; [discriminate E| |].
      * destruct (Hd0 _ Hd') as [E _]. discriminate E.
      * specialize (Hr0 _ Hr). absurd_after Hr0.
    + intros m H. apply Hin in H; [|reflexivity]; destruct H as [[v E]|[Hd'|Hr]]; [discriminate E| |].
      * destruct (Hd0 _ Hd') as [E _]. discriminate E.
      * specialize (Hr0 _ Hr). absurd_after Hr0.
    + intros rid H. apply Hin in H; [|reflexivity]; destruct H as [[v E]|[Hd'|Hr]]; [discriminate E| |].
      * destruct (Hd0 _ Hd') as [E _]. discriminate E.
      * destruct (Hrest _ Hr) as (wf & E & _). specialize (proj2 (Hok wf E) rid Hr).
        rewrite T. cbn [andb]. apply Hout.
Qed.

Lemma join_detection_witness :
  In (CallWaitWindow (Some "12345") 60)
     (trace_of (start_recording_A Demo.env 10 Demo.session Demo.w0)) /\
  ~ In Tasklist (trace_of (start_recording_A Demo.env 10 Demo.session Demo.w0)).
Proof.
  pose proof (join_detection_strategy Demo.env 10%nat Demo.session Demo.w0
                "https://host/j/12345?pwd=xyz" eq_refl) as H.
  cbv zeta in H. destruct H as (_ & Hcall & Hfound & _). split.
  - apply Hcall; reflexivity.
  - refine (proj1 (Hfound _)). vm_compute. do 14 right. left. reflexivity.
Defined.

(** C4 as stated fails: the join link carries no meeting id, a window
    titled "Zoom Meeting" is visible, the session goes on to StartRecord,
    and yet [wait_for_meeting_window] is never called and no window title
    is read; the end of the meeting is awaited on the client process. *)
Lemma no_id_skips_window_wait :
  existsb (join_match None) (titles Demo.env 0) = true /\
  existsb is_wait_window
    (trace_of (start_recording_A Demo.env 10 Demo.session_without_id Demo.w0)) = false /\
  existsb is_enum
    (trace_of (start_recording_A Demo.env 10 Demo.session_without_id Demo.w0)) = false /\
  existsb (is_obs "StartRecord")
    (trace_of (start_recording_A Demo.env 10 Demo.session_without_id Demo.w0)) = true /\
  existsb is_tasklist
    (trace_of (start_recording_A Demo.env 10 Demo.session_without_id Demo.w0)) = true.
Proof. vm_compute. repeat split. Qed.
